(** * A Telegram homework-status bot: shallow embedding and properties

    The bot of [homework.py] polls a review API, validates the answer,
    formats the status of the first homework and sends it to a chat.
    The embedding below follows the Python source function by function:

    - JSON data as the Python objects [json()] builds ([value]);
    - the exception classes of [exceptions.py] and of the libraries the
      bot catches, with their subclass relation;
    - effects (logging, HTTP, Telegram, sleeping) as a state-and-exception
      monad over a [World] that records an event trace, with the network
      and the Telegram server as oracles;
    - [try]/[except]/[else]/[finally] as combinators with Python's rules. *)

From Stdlib Require Import PrimFloat.
From stdpp Require Import base strings list pretty.

#[local] Set Warnings "-register-all".
#[local] Open Scope string_scope.
#[local] Open Scope Z_scope.

(** ** Python objects *)

(** What [Response.json()] can return.  A [dict] keeps its items as an
    association list in insertion order, because the error messages of the
    bot print [keys()] in that order; [dict_get] reads the first binding of
    a key, so an association list without repeated keys is exactly a
    Python dict. *)
Inductive value :=
| VNone
| VBool (b : bool)
| VInt (n : Z)
| VFloat (x : float)
| VStr (s : string)
| VList (l : list value)
| VDict (d : list (string * value)).

Definition dict := list (string * value).

Fixpoint dict_get (d : dict) (k : string) : option value :=
  match d with
  | [] => None
  | (k', v) :: d' => if String.eqb k' k then Some v else dict_get d' k
  end.

Definition dict_has (d : dict) (k : string) : bool :=
  match dict_get d k with Some _ => true | None => false end.

Definition dict_keys (d : dict) : list string := map fst d.

(** [type(x).__name__] *)
Definition type_name (v : value) : string :=
  match v with
  | VNone => "NoneType"
  | VBool _ => "bool"
  | VInt _ => "int"
  | VFloat _ => "float"
  | VStr _ => "str"
  | VList _ => "list"
  | VDict _ => "dict"
  end.

(** [str(type(x))], as an f-string prints [{type(x)}] *)
Definition type_str (v : value) : string :=
  "<class '" +:+ type_name v +:+ "'>".

(** [s1 in s2] on two [str] objects *)
Fixpoint str_contains (sub s : string) : bool :=
  String.prefix sub s ||
  match s with
  | EmptyString => false
  | String _ s' => str_contains sub s'
  end.

(** [hash(x)] succeeds: of the JSON types, a [list] and a [dict] cannot
    be the key of a dict. *)
Definition hashable (v : value) : bool :=
  match v with
  | VList _ | VDict _ => false
  | _ => true
  end.

(** [repr] of a [str] and of a [float] are the interpreter's own (choice
    of quotes, escapes, shortest round-trip digits); they are taken as
    given, and every statement below holds whatever they print. *)
Class Python := {
  repr_str : string → string;
  repr_float : float → string;
}.

Section Builtins.
Context {py : Python}.

Fixpoint repr (v : value) : string :=
  match v with
  | VNone => "None"
  | VBool true => "True"
  | VBool false => "False"
  | VInt n => pretty n
  | VFloat x => repr_float x
  | VStr s => repr_str s
  | VList l => "[" +:+ String.concat ", " (map repr l) +:+ "]"
  | VDict d =>
      "{" +:+ String.concat ", "
                (map (λ kv, repr_str (fst kv) +:+ ": " +:+ repr (snd kv)) d)
          +:+ "}"
  end.

(** [str(x)], which is what [{x}] in an f-string inserts *)
Definition str (v : value) : string :=
  match v with
  | VStr s => s
  | _ => repr v
  end.

(** [str(d.keys())] *)
Definition keys_str (d : dict) : string :=
  "dict_keys(" +:+ repr (VList (map VStr (dict_keys d))) +:+ ")".

(** [str(x)] for an environment variable read with [os.getenv] *)
Definition str_env (x : option string) : string :=
  match x with
  | Some s => s
  | None => "None"
  end.

End Builtins.

(** ** Exceptions *)

(** The classes of [exceptions.py], the built-in ones the bot raises or
    can meet, and the two library classes it catches.  [ConnectionError]
    is the class of [exceptions.py], not the built-in of that name. *)
Inductive exc_class :=
| BaseException | SystemExit | Exception
| CommonError
| GeneralError | ConnectionError | WrongStatusCodeError | MessageNotSentError
| TypeError | LookupError | KeyError | AttributeError
| ValueError | JSONDecodeError
| RuntimeError | RecursionError
| OSError | RequestException
| TelegramError.

#[global] Instance exc_class_eq_dec : EqDecision exc_class.
Proof. solve_decision. Defined.

(** The base class each class is declared with. *)
Definition base (c : exc_class) : option exc_class :=
  match c with
  | BaseException => None
  | SystemExit | Exception => Some BaseException
  | CommonError | GeneralError => Some Exception
  | ConnectionError | WrongStatusCodeError | MessageNotSentError =>
      Some GeneralError
  | TypeError | LookupError | AttributeError | ValueError | OSError
  | RuntimeError | TelegramError => Some Exception
  | KeyError => Some LookupError
  | JSONDecodeError => Some ValueError
  | RecursionError => Some RuntimeError
  | RequestException => Some OSError
  end.

Fixpoint issubclass_upto (depth : nat) (c d : exc_class) : bool :=
  bool_decide (c = d) ||
  match depth, base c with
  | S depth', Some b => issubclass_upto depth' b d
  | _, _ => false
  end.

(** No class above is more than four steps below [BaseException]. *)
Definition issubclass : exc_class → exc_class → bool := issubclass_upto 4.

(** A raised exception: its class and the text it was built with. *)
Record exn := Exn { exn_class : exc_class; exn_arg : string }.

Definition isinstance (e : exn) (c : exc_class) : bool :=
  issubclass (exn_class e) c.

(** [str(error)]: a [KeyError] prints the [repr] of its argument, every
    other class here prints the argument itself. *)
Definition str_exn {py : Python} (e : exn) : string :=
  match exn_class e with
  | KeyError => repr_str (exn_arg e)
  | _ => exn_arg e
  end.

(** ** The outside world *)

(** What the call [json()] of a response does.  Besides the
    [JSONDecodeError] of a body that is not JSON, the decoder lets two
    errors through that are not of that class: the [ValueError] of an
    integer literal with more digits than the interpreter converts, and
    the [RecursionError] of a body nested too deep.  Each carries the text
    it prints as. *)
Inductive json_outcome :=
| Parsed (body : value)
| NotJson (err : string)
| NumberTooLong (err : string)
| NestedTooDeep (err : string).

Record Response := {
  status_code : Z;
  json : json_outcome;
}.

(** What a call of [requests.get] meets: a [RequestException] that
    prints as [err], or a response. *)
Inductive get_outcome :=
| GetRaises (err : string)
| GetResponse (r : Response).

(** What a call of [bot.send_message] meets: delivery, or a
    [TelegramError] that prints as [err]. *)
Inductive send_outcome :=
| Delivered
| SendRaises (err : string).

(** The process environment, the clock and the two servers.  The n-th
    call of [requests.get] and of [bot.send_message] meets the n-th
    outcome. *)
Class Outside := {
  PRACTICUM_TOKEN : option string;
  TELEGRAM_TOKEN : option string;
  TELEGRAM_CHAT_ID : option string;
  (** [int(time.time())] when [main] reads it *)
  time_time : Z;
  (** what [telegram.Bot(token=...)] does: [None] when the bot is built,
      the text of the [TelegramError] when the token is refused *)
  telegram_Bot : option string;
  requests_get : nat → get_outcome;
  bot_send_message : nat → send_outcome;
}.

Inductive level := DEBUG | INFO | ERROR | CRITICAL.

Inductive event :=
| Log (lvl : level) (msg : string)
| HttpGet (url : string) (headers params : value)
| BotSend (chat_id : option string) (text : string) (outcome : send_outcome)
| Sleep (seconds : Z).

Record World := {
  gets : nat;            (* calls of [requests.get] so far *)
  sends : nat;           (* calls of [bot.send_message] so far *)
  trace : list event;    (* everything observable, oldest first *)
}.

(** ** Computations that may raise *)

Inductive result (A : Type) :=
| Return (a : A)
| Raise (e : exn).
Arguments Return {A} a.
Arguments Raise {A} e.

Definition M (A : Type) : Type := World → result A * World.

#[global] Instance M_ret : MRet M := λ A a w, (Return a, w).
#[global] Instance M_bind : MBind M := λ A B f m w,
  match m w with
  | (Return a, w') => f a w'
  | (Raise e, w') => (Raise e, w')
  end.

Definition raise {A} (e : exn) : M A := λ w, (Raise e, w).

Definition emit (ev : event) : M unit :=
  λ w, (Return (), {| gets := gets w; sends := sends w;
                      trace := trace w ++ [ev] |}).

(** A handler clause [except c as error: h error]. *)
Definition clause (A : Type) : Type := exc_class * (exn → M A).

(** The first clause whose class the exception is an instance of runs;
    what it raises is not offered to the clauses after it. *)
Fixpoint dispatch {A} (clauses : list (clause A)) (e : exn) : M A :=
  match clauses with
  | [] => raise e
  | (c, h) :: rest => if isinstance e c then h e else dispatch rest e
  end.

(** [try: body / except ...: ... / else: orelse] *)
Definition try_except_else {A B} (body : M A) (clauses : list (clause B))
    (orelse : A → M B) : M B :=
  λ w, match body w with
       | (Return a, w') => orelse a w'
       | (Raise e, w') => dispatch clauses e w'
       end.

(** [try: body / except ...: ...] *)
Definition try_except {A} (body : M A) (clauses : list (clause A)) : M A :=
  try_except_else body clauses mret.

(** [try: body / finally: final]: [final] runs on every way out of [body];
    the result of [body], value or exception, stands unless [final] itself
    raises. *)
Definition try_finally {A} (body : M A) (final : M unit) : M A :=
  λ w, match body w with
       | (r, w') =>
           match final w' with
           | (Return _, w'') => (r, w'')
           | (Raise e, w'') => (Raise e, w'')
           end
       end.

(** ** Calls that leave the program *)

Section Calls.
Context {py : Python} {out : Outside}.

(** The root logger is configured at level DEBUG: every record is
    written. *)
Definition logging (lvl : level) (msg : string) : M unit :=
  emit (Log lvl msg).

(** [requests.get(url=..., headers=..., params=...)] *)
Definition requests_get_call (url : string) (headers params : value)
    : M Response :=
  λ w, let w' := {| gets := S (gets w); sends := sends w;
                    trace := trace w ++ [HttpGet url headers params] |} in
       match requests_get (gets w) with
       | GetRaises err => (Raise (Exn RequestException err), w')
       | GetResponse r => (Return r, w')
       end.

(** [response.json()]: the parsed body, or the exception the decoder
    raises; [JSONDecodeError] is the class of the module [json], the one
    [homework.py] imports. *)
Definition json_call (r : Response) : M value :=
  match json r with
  | Parsed body => mret body
  | NotJson err => raise (Exn JSONDecodeError err)
  | NumberTooLong err => raise (Exn ValueError err)
  | NestedTooDeep err => raise (Exn RecursionError err)
  end.

(** [bot.send_message(chat_id=..., text=...)] *)
Definition bot_send_message_call (chat_id : option string) (text : string)
    : M unit :=
  λ w, let outcome := bot_send_message (sends w) in
       let w' := {| gets := gets w; sends := S (sends w);
                    trace := trace w ++ [BotSend chat_id text outcome] |} in
       match outcome with
       | Delivered => (Return (), w')
       | SendRaises err => (Raise (Exn TelegramError err), w')
       end.

(** [time.sleep(seconds)] *)
Definition time_sleep (seconds : Z) : M unit := emit (Sleep seconds).

(** *** Operations of the interpreter on JSON data

    The texts of the interpreter's own errors are those of CPython 3.9;
    no statement below depends on them. *)

(** [key in x] *)
Definition py_in (key : string) (x : value) : M bool :=
  match x with
  | VDict d => mret (dict_has d key)
  | VList l =>
      mret (existsb (λ v, match v with
                          | VStr s => String.eqb s key
                          | _ => false
                          end) l)
  | VStr s => mret (str_contains key s)
  | _ => raise (Exn TypeError
                  ("argument of type '" +:+ type_name x
                   +:+ "' is not iterable"))
  end.

(** [str(x.keys())] *)
Definition py_keys (x : value) : M string :=
  match x with
  | VDict d => mret (keys_str d)
  | _ => raise (Exn AttributeError
                  ("'" +:+ type_name x
                   +:+ "' object has no attribute 'keys'"))
  end.

(** [x[key]] *)
Definition py_getitem (x : value) (key : string) : M value :=
  match x with
  | VDict d =>
      match dict_get d key with
      | Some v => mret v
      | None => raise (Exn KeyError key)
      end
  | VList _ =>
      raise (Exn TypeError "list indices must be integers or slices, not str")
  | VStr _ => raise (Exn TypeError "string indices must be integers")
  | _ => raise (Exn TypeError
                  ("'" +:+ type_name x +:+ "' object is not subscriptable"))
  end.

(** [x.get(key)] *)
Definition py_get (x : value) (key : string) : M value :=
  match x with
  | VDict d => mret (default VNone (dict_get d key))
  | _ => raise (Exn AttributeError
                  ("'" +:+ type_name x
                   +:+ "' object has no attribute 'get'"))
  end.

End Calls.

(** ** homework.py *)

Definition RETRY_PERIOD : Z := 600.
Definition ENDPOINT : string :=
  "https://practicum.yandex.ru/api/user_api/homework_statuses/".
Definition HTTPStatus_OK : Z := 200.

(** The double-quote character of the message template. *)
Definition dquote : string := String (Ascii.ascii_of_nat 34) EmptyString.

Definition HOMEWORK_VERDICTS : list (string * string) :=
  [ ("approved", "Работа проверена: ревьюеру всё понравилось. Ура!");
    ("reviewing", "Работа взята на проверку ревьюером.");
    ("rejected", "Работа проверена: у ревьюера есть замечания.") ].

Fixpoint verdict_of (table : list (string * string)) (status : string)
    : option string :=
  match table with
  | [] => None
  | (k, v) :: rest => if String.eqb k status then Some v else verdict_of rest status
  end.

Section Homework.
Context {py : Python} {out : Outside}.

Definition HEADERS : value :=
  VDict [("Authorization", VStr ("OAuth " +:+ str_env PRACTICUM_TOKEN))].

(** [x in HOMEWORK_VERDICTS]: the key is hashed first, which a [list]
    or a [dict] refuses. *)
Definition in_HOMEWORK_VERDICTS (x : value) : M bool :=
  if negb (hashable x) then
    raise (Exn TypeError ("unhashable type: '" +:+ type_name x +:+ "'"))
  else
    match x with
    | VStr s => mret (bool_decide (is_Some (verdict_of HOMEWORK_VERDICTS s)))
    | _ => mret false
    end.

(** [HOMEWORK_VERDICTS[x]] *)
Definition HOMEWORK_VERDICTS_getitem (x : value) : M string :=
  if negb (hashable x) then
    raise (Exn TypeError ("unhashable type: '" +:+ type_name x +:+ "'"))
  else
    match x with
    | VStr s =>
        match verdict_of HOMEWORK_VERDICTS s with
        | Some verdict => mret verdict
        | None => raise (Exn KeyError s)
        end
    | _ => raise (Exn KeyError (repr x))
    end.

(** [send_message(bot, message)]; the bot object is the Telegram oracle
    of [Outside]. *)
Definition send_message (message : string) : M unit :=
  logging INFO ("Отправляем сообщение " +:+ message
                +:+ " в чат телеграмма с id " +:+ str_env TELEGRAM_CHAT_ID
                +:+ ".") ;;
  try_except_else
    (bot_send_message_call TELEGRAM_CHAT_ID message)
    [ (TelegramError, λ error,
        let message :=
          "Ошибка отправки сообщения " +:+ str_exn error
          +:+ " (отправка в чат с id " +:+ str_env TELEGRAM_CHAT_ID
          +:+ ", текст: " +:+ message +:+ ")." in
        logging ERROR message ;;
        raise (Exn MessageNotSentError message)) ]
    (λ _, logging DEBUG ("Сообщение " +:+ message +:+ " отправлено")).

Definition get_api_answer (timestamp : value) : M value :=
  let params := VDict [("from_date", timestamp)] in
  logging INFO ("Делаем запрос к API сервиса с параметрами "
                +:+ repr params +:+ ".") ;;
  try_except
    (homework_statuses ← requests_get_call ENDPOINT HEADERS params;
     if bool_decide (status_code homework_statuses ≠ HTTPStatus_OK) then
       raise (Exn WrongStatusCodeError
                ("Получен неожиданный ответ от сервера"
                 +:+ "(ожидался HTTP Code " +:+ pretty HTTPStatus_OK +:+ ", "
                 +:+ "получен " +:+ pretty (status_code homework_statuses)
                 +:+ ", "
                 +:+ "запрос к url: " +:+ ENDPOINT +:+ ", заголовки: "
                 +:+ repr HEADERS +:+ ","
                 +:+ "параметры: " +:+ repr params +:+ ")."))
     else json_call homework_statuses)
    [ (JSONDecodeError, λ e,
        raise (Exn GeneralError
                 ("Не удалось получить json из ответа: ошибка формата данных "
                  +:+ str_exn e +:+ " "
                  +:+ "(запрос к url: " +:+ ENDPOINT +:+ ", заголовки: "
                  +:+ repr HEADERS +:+ ", "
                  +:+ "параметры: " +:+ repr params +:+ ").")));
      (RequestException, λ e,
        raise (Exn ConnectionError
                 ("Ошибка соединения " +:+ str_exn e
                  +:+ " (запрос к url: " +:+ ENDPOINT +:+ ", "
                  +:+ "заголовки: " +:+ repr HEADERS +:+ ", параметры: "
                  +:+ repr params +:+ ")."))) ].

Definition check_response (response : value) : M (list value) :=
  logging INFO "Проверяется ответ API на корректность." ;;
  match response with
  | VDict d =>
      if negb (dict_has d "homeworks") then
        raise (Exn KeyError ("Ключа homeworks нет в словаре"
                             +:+ "(пришли ключи " +:+ keys_str d +:+ ")."))
      else if negb (dict_has d "current_date") then
        raise (Exn KeyError ("Ключа current_date нет в словаре"
                             +:+ "(пришли ключи " +:+ keys_str d +:+ ")."))
      else
        homeworks ← py_getitem response "homeworks";
        match homeworks with
        | VList l => mret l
        | _ =>
            raise (Exn TypeError
                     ("Запрос к серверу пришёл не в виде списка"
                      +:+ "(получен " +:+ type_str homeworks
                      +:+ " вместо этого)."))
        end
  | _ =>
      raise (Exn TypeError ("Ответ вернулся не в виде словаря"
                            +:+ "(был получен " +:+ type_str response
                            +:+ " вместо этого)."))
  end.

Definition parse_status (homeworks : value) : M string :=
  logging INFO ("Извлекаем информацию о домашней работе "
                +:+ "и получаем ее статус.") ;;
  has_name ← py_in "homework_name" homeworks;
  (if negb has_name then
     keys ← py_keys homeworks;
     raise (Exn KeyError ("Ключ homework_name не обнаружен в словаре"
                          +:+ "(присутствуют ключи " +:+ keys +:+ ")."))
   else mret ()) ;;
  homework_name ← py_getitem homeworks "homework_name";
  has_status ← py_in "status" homeworks;
  (if negb has_status then
     keys ← py_keys homeworks;
     raise (Exn KeyError ("Ключ status не обнаружен в словаре"
                          +:+ "(присутствуют ключи " +:+ keys +:+ ")."))
   else mret ()) ;;
  homework_status ← py_get homeworks "status";
  match homework_status with
  | VNone =>
      raise (Exn CommonError "Статус домашней работы не был получен.")
  | _ =>
      known ← in_HOMEWORK_VERDICTS homework_status;
      if negb known then
        raise (Exn CommonError "Статус не обнаружен в списке ожидаемых.")
      else
        verdict ← HOMEWORK_VERDICTS_getitem homework_status;
        mret ("Изменился статус проверки работы " +:+ dquote
              +:+ str homework_name +:+ dquote +:+ ". " +:+ verdict)
  end.

(** The [try] block of a turn of [while True] in [main]; its result is
    the value it assigns to [timestamp]. *)
Definition cycle_body (timestamp : value) : M value :=
  response ← get_api_answer timestamp;
  homeworks ← check_response response;
  logging INFO ("Получен список работ " +:+ repr response) ;;
  match homeworks with
  | first :: _ =>
      message ← parse_status first;
      send_message message
  | [] =>
      logging DEBUG "Нет новых статусов" ;;
      send_message "Нет новых статусов"
  end ;;
  py_get response "current_date".

(** The two [except] clauses of the turn; neither assigns to
    [timestamp]. *)
Definition cycle_clauses (timestamp : value) : list (clause value) :=
  [ (GeneralError, λ error,
      logging ERROR (str_exn error) ;;
      send_message (str_exn error) ;;
      mret timestamp);
    (Exception, λ error,
      logging ERROR (str_exn error) ;;
      mret timestamp) ].

(** One turn: [try] / [except] / [finally], from the value of
    [timestamp] at its start to the value at its end. *)
Definition cycle (timestamp : value) : M value :=
  try_finally
    (try_except (cycle_body timestamp) (cycle_clauses timestamp))
    (time_sleep RETRY_PERIOD).

(** [check_tokens()]: [all] of the three variables, each true when it is
    set and not empty. *)
Definition truthy (x : option string) : bool :=
  match x with
  | Some s => negb (String.eqb s EmptyString)
  | None => false
  end.

Definition check_tokens : M bool :=
  logging INFO "Проверяем доступность переменных окружения." ;;
  mret (forallb truthy [PRACTICUM_TOKEN; TELEGRAM_TOKEN; TELEGRAM_CHAT_ID]).

(** The [while True] of [main]: after [turns] turns the loop is either
    still running, with the current [timestamp] as result, or an exception
    has left it and [main] with it. *)
Fixpoint main_loop (turns : nat) (timestamp : value) : M value :=
  match turns with
  | O => mret timestamp
  | S turns' =>
      timestamp' ← cycle timestamp;
      main_loop turns' timestamp'
  end.

(** [main()], followed for [turns] turns of its loop.  [sys.exit] raises
    [SystemExit]; nothing in [main] catches what the constructor of the
    bot raises. *)
Definition main (turns : nat) : M value :=
  ok ← check_tokens;
  if negb ok then
    logging CRITICAL "Токены не доступны" ;;
    raise (Exn SystemExit "Ничего не работает, токены не доступны")
  else
    match telegram_Bot with
    | Some err => raise (Exn TelegramError err)
    | None => main_loop turns (VInt time_time)
    end.

End Homework.

(** ** Reading a trace *)

(** The run starts with nothing called and nothing observed. *)
Definition world0 : World := {| gets := 0; sends := 0; trace := [] |}.

(** The texts the bot handed to [bot.send_message]. *)
Definition chat_texts (tr : list event) : list string :=
  omap (λ ev, match ev with BotSend _ text _ => Some text | _ => None end) tr.

(** The texts that reached the chat. *)
Definition delivered_texts (tr : list event) : list string :=
  omap (λ ev, match ev with
              | BotSend _ text Delivered => Some text
              | _ => None
              end) tr.

(** The [from_date] of every request made. *)
Definition from_dates (tr : list event) : list (option value) :=
  omap (λ ev, match ev with
              | HttpGet _ _ (VDict params) => Some (dict_get params "from_date")
              | _ => None
              end) tr.

(** The records written at level ERROR. *)
Definition error_logs (tr : list event) : list string :=
  omap (λ ev, match ev with Log ERROR msg => Some msg | _ => None end) tr.

(** The pauses taken, in seconds. *)
Definition sleeps (tr : list event) : list Z :=
  omap (λ ev, match ev with Sleep seconds => Some seconds | _ => None end) tr.

(** The chats the bot was asked to write to. *)
Definition chat_ids (tr : list event) : list (option string) :=
  omap (λ ev, match ev with BotSend chat _ _ => Some chat | _ => None end) tr.

(** The requests made: address, headers and parameters. *)
Definition requests (tr : list event) : list (string * value * value) :=
  omap (λ ev, match ev with
              | HttpGet url headers params => Some (url, headers, params)
              | _ => None
              end) tr.

(** The records written at level CRITICAL. *)
Definition critical_logs (tr : list event) : list string :=
  omap (λ ev, match ev with Log CRITICAL msg => Some msg | _ => None end) tr.

(** ** Reading a turn *)

(** A world after more records were written, with no call made. *)
Definition logged (w : World) (evs : list event) : World :=
  {| gets := gets w; sends := sends w; trace := trace w ++ evs |}.

Section Stages.
Context {py : Python} {out : Outside}.

(** The text a turn is about to send: the status of the first homework,
    or the fixed text when the list is empty. *)
Definition chosen_text (homeworks : list value) : M string :=
  match homeworks with
  | first :: _ => parse_status first
  | [] => logging DEBUG "Нет новых статусов" ;; mret "Нет новых статусов"
  end.

(** The ways a turn's [try] block can go: each stage either stops the
    block with the exception it raises, or hands over to the next. *)
Inductive body_run (timestamp : value) (w : World)
    : result value → World → Prop :=
| fetch_fails e w1 :
    get_api_answer timestamp w = (Raise e, w1) →
    body_run timestamp w (Raise e) w1
| validate_fails response w1 e w2 :
    get_api_answer timestamp w = (Return response, w1) →
    check_response response w1 = (Raise e, w2) →
    body_run timestamp w (Raise e) w2
| format_fails response w1 homeworks w2 info e w3 :
    get_api_answer timestamp w = (Return response, w1) →
    check_response response w1 = (Return homeworks, w2) →
    chosen_text homeworks (logged w2 [Log INFO info]) = (Raise e, w3) →
    body_run timestamp w (Raise e) w3
| notify_fails response w1 homeworks w2 info message w3 e w4 :
    get_api_answer timestamp w = (Return response, w1) →
    check_response response w1 = (Return homeworks, w2) →
    chosen_text homeworks (logged w2 [Log INFO info]) =
      (Return message, w3) →
    send_message message w3 = (Raise e, w4) →
    body_run timestamp w (Raise e) w4
| turn_succeeds response w1 homeworks w2 info message w3 w4 current_date :
    get_api_answer timestamp w = (Return response, w1) →
    check_response response w1 = (Return homeworks, w2) →
    chosen_text homeworks (logged w2 [Log INFO info]) =
      (Return message, w3) →
    send_message message w3 = (Return (), w4) →
    py_get response "current_date" w4 = (Return current_date, w4) →
    body_run timestamp w (Return current_date) w4.

End Stages.

(** ** A sample interpreter and sample servers, for running the bot *)

(** Quotes a text the way [repr] does when it holds no quote, backslash
    or control character. *)
Definition sample_python : Python := {|
  repr_str s := "'" +:+ s +:+ "'";
  repr_float _ := "0.0";
|}.

Definition sample_outside (get : nat → get_outcome) (send : nat → send_outcome)
    : Outside := {|
  PRACTICUM_TOKEN := Some "practicum";
  TELEGRAM_TOKEN := Some "telegram";
  TELEGRAM_CHAT_ID := Some "42";
  time_time := 0;
  telegram_Bot := None;
  requests_get := get;
  bot_send_message := send;
|}.

Definition ok_response (body : value) : get_outcome :=
  GetResponse {| status_code := 200; json := Parsed body |}.

(** The API cannot be reached and Telegram refuses every message. *)
Definition outage : Outside :=
  sample_outside (λ _, GetRaises "timed out") (λ _, SendRaises "Forbidden").

(** One homework, approved; the server's clock reads 1000. *)
Definition approved_entry : dict :=
  [("homework_name", VStr "X"); ("status", VStr "approved")].

Definition approved_body : dict :=
  [("homeworks", VList [VDict approved_entry]); ("current_date", VInt 1000)].

Definition approved_server : Outside :=
  sample_outside (λ _, ok_response (VDict approved_body)) (λ _, Delivered).

(** The answer has no [current_date]. *)
Definition undated_body : dict := [("homeworks", VList [])].

Definition undated_server : Outside :=
  sample_outside (λ _, ok_response (VDict undated_body)) (λ _, Delivered).

(** The answer's [current_date] is a text. *)
Definition odd_body : dict :=
  [("homeworks", VList []); ("current_date", VStr "yesterday")].

Definition odd_server : Outside :=
  sample_outside (λ _, ok_response (VDict odd_body)) (λ _, Delivered).

(** The API answers 503. *)
Definition unavailable_server : Outside :=
  sample_outside
    (λ _, GetResponse {| status_code := 503; json := NotJson "no body" |})
    (λ _, Delivered).

(** An entry without [status], and one whose [status] is the empty text. *)
Definition entry_without_status : dict := [("homework_name", VStr "X")].

Definition entry_with_empty_status : dict :=
  [("homework_name", VStr "X"); ("status", VStr EmptyString)].

(** The process was started without [TELEGRAM_TOKEN]. *)
Definition tokenless : Outside := {|
  PRACTICUM_TOKEN := Some "practicum";
  TELEGRAM_TOKEN := None;
  TELEGRAM_CHAT_ID := Some "42";
  time_time := 0;
  telegram_Bot := None;
  requests_get := λ _, ok_response (VDict approved_body);
  bot_send_message := λ _, Delivered;
|}.

(** Telegram refuses the first message and accepts the following ones. *)
Definition hiccup_server : Outside :=
  sample_outside (λ _, ok_response (VDict odd_body))
    (λ n, match n with O => SendRaises "Timed out" | S _ => Delivered end).

(** The body of the answer is not JSON. *)
Definition garbled_server : Outside :=
  sample_outside
    (λ _, GetResponse {| status_code := 200; json := NotJson "Expecting value" |})
    (λ _, Delivered).

(** The body of the answer is nested deeper than the decoder goes. *)
Definition deep_server : Outside :=
  sample_outside
    (λ _, GetResponse
            {| status_code := 200;
               json := NestedTooDeep "maximum recursion depth exceeded" |})
    (λ _, Delivered).

(** An answer whose [homeworks] is a text. *)
Definition text_list_body : dict :=
  [("homeworks", VStr "none"); ("current_date", VInt 1000)].

(** The API cannot be reached; Telegram works. *)
Definition unreachable_server : Outside :=
  sample_outside (λ _, GetRaises "timed out") (λ _, Delivered).

(** Entries and answers that are not as the API documents them. *)
Definition entry_without_name : dict := [("status", VStr "approved")].

Definition entry_with_null_status : dict :=
  [("homework_name", VStr "X"); ("status", VNone)].

Definition entry_with_list_status : dict :=
  [("homework_name", VStr "X"); ("status", VList [])].

(** The status of the one homework is the empty text. *)
Definition stale_server : Outside :=
  sample_outside
    (λ _, ok_response
            (VDict [("homeworks", VList [VDict entry_with_empty_status]);
                    ("current_date", VInt 1000)]))
    (λ _, Delivered).

Definition keyless_body : dict := [("current_date", VInt 1000)].

Definition misshapen_body : dict := [("homeworks", VStr "none")].

(** * Properties *)

#[local] Arguments String.append : simpl never.
#[local] Arguments repr : simpl never.
#[local] Arguments keys_str : simpl never.
#[local] Arguments pretty : simpl never.
#[local] Arguments isinstance : simpl never.
#[local] Arguments String.eqb : simpl never.
#[local] Arguments verdict_of : simpl never.

(** ** Texts *)

Lemma prefix_app (sub post : string) : String.prefix sub (sub +:+ post) = true.
Proof.
  induction sub as [|c sub IH]; [by destruct post|].
  change (String c sub +:+ post) with (String c (sub +:+ post)).
  simpl. by destruct (Ascii.ascii_dec c c).
Qed.

Lemma str_contains_unfold (sub s : string) :
  str_contains sub s =
  String.prefix sub s ||
  match s with
  | EmptyString => false
  | String _ s' => str_contains sub s'
  end.
Proof. by destruct s. Qed.

(** A text contains whatever was spliced into it. *)
Lemma str_contains_app (pre sub post : string) :
  str_contains sub (pre +:+ sub +:+ post) = true.
Proof.
  induction pre as [|c pre IH]; rewrite str_contains_unfold.
  - change (EmptyString +:+ sub +:+ post) with (sub +:+ post).
    by rewrite prefix_app.
  - change (String c pre +:+ sub +:+ post)
      with (String c (pre +:+ sub +:+ post)).
    cbv beta iota. rewrite IH. apply orb_true_r.
Qed.

Lemma str_contains_here (sub post : string) :
  str_contains sub (sub +:+ post) = true.
Proof. apply (str_contains_app EmptyString). Qed.

Lemma str_contains_skip (pre sub s : string) :
  str_contains sub s = true → str_contains sub (pre +:+ s) = true.
Proof.
  intros Hs. induction pre as [|c pre IH]; [done|].
  rewrite str_contains_unfold.
  change (String c pre +:+ s) with (String c (pre +:+ s)).
  cbv beta iota. rewrite IH. apply orb_true_r.
Qed.

(** Decides the next comparison of two texts in the goal. *)
Ltac case_eqb :=
  match goal with
  | |- context [String.eqb ?a ?b] =>
      destruct (String.eqb_spec a b) as [<-|?]
  end.

(** Finds a spliced text in a chain of concatenations. *)
Ltac find_text :=
  repeat first [ apply str_contains_here | apply str_contains_skip ].

(** ** Running a computation *)

Lemma run_eta {A} (m : M A) (w : World) : m w = ((m w).1, (m w).2).
Proof. by destruct (m w). Qed.

Lemma bind_run {A B} (m : M A) (f : A → M B) (w : World) :
  (m ≫= f) w = match (m w).1 with
               | Return a => f a (m w).2
               | Raise e => (Raise e, (m w).2)
               end.
Proof. unfold mbind, M_bind. by destruct (m w) as [[a|e] w']. Qed.

Lemma try_finally_run {A} (m : M A) (seconds : Z) (w : World) :
  try_finally m (time_sleep seconds) w =
  ((m w).1, {| gets := gets (m w).2; sends := sends (m w).2;
               trace := trace (m w).2 ++ [Sleep seconds] |}).
Proof. unfold try_finally. by destruct (m w). Qed.

(** Unfolds the plumbing of the monad and of the calls, leaving the
    tests on data and on the oracles. *)
Ltac run :=
  unfold try_except, try_except_else, try_finally, json_call,
    requests_get_call, bot_send_message_call, time_sleep, logging, emit,
    raise, mbind, M_bind, mret, M_ret in *;
  cbn in *;
  repeat match goal with
         | |- context [isinstance ?e ?c] =>
             let b := eval vm_compute in (isinstance e c) in
             change (isinstance e c) with b; cbn
         end.

(** Splits a statement into its parts and closes those that follow from
    the hypotheses by unpacking them. *)
Ltac settle :=
  repeat split;
  try (intros;
       repeat match goal with
              | H : ∃ _, _ |- _ => destruct H
              | H : _ ∧ _ |- _ => destruct H
              end;
       simplify_eq; first [congruence | by eauto 8]).

(** ** get_api_answer *)

Section Fetch.
Context {py : Python} {out : Outside}.

(** Whatever comes back, the call leaves one log record and one request
    carrying the cursor it was given. *)
Lemma get_api_answer_world (timestamp : value) (w : World) :
  ∃ info, (get_api_answer timestamp w).2 =
          {| gets := S (gets w); sends := sends w;
             trace := trace w ++
               [Log INFO info;
                HttpGet ENDPOINT HEADERS (VDict [("from_date", timestamp)])] |}.
Proof.
  eexists. unfold get_api_answer. run.
  destruct (requests_get (gets w)) as [err|r]; run.
  - by rewrite <- app_assoc.
  - case_bool_decide; run; [|destruct (json r); run]; by rewrite <- app_assoc.
Qed.


End Fetch.

(** ** check_response *)

#[local] Arguments type_str : simpl never.

Section Validate.
Context {py : Python}.

(** Validation writes one log record and touches nothing else. *)
Lemma check_response_world (response : value) (w : World) :
  (check_response response w).2 =
  {| gets := gets w; sends := sends w;
     trace := trace w ++ [Log INFO "Проверяется ответ API на корректность."] |}.
Proof.
  unfold check_response, py_getitem, dict_has. run.
  destruct response as [| | | | |l|d]; try done.
  destruct (dict_get d "homeworks") as [[]|]; run; try done;
    by destruct (dict_get d "current_date").
Qed.

(** C5: [check_response] returns the list bound to [homeworks] as it is
    whenever the response is a dict that has the key [homeworks], bound
    to a list, and the key [current_date]; in every other case it raises
    a [TypeError] or a [KeyError] that names what is wrong.  A response
    that is not a dict raises a [TypeError] whose text holds the type of
    the response; a dict without one of the two keys raises a [KeyError]
    whose text holds the keys the dict does have; a dict with both keys
    whose [homeworks] is not a list raises a [TypeError] whose text holds
    the type of the value of [homeworks]. *)
Theorem check_response_list_or_named_error (response : value) (w : World) :
  (∀ d l cd,
     response = VDict d →
     dict_get d "homeworks" = Some (VList l) →
     dict_get d "current_date" = Some cd →
     (check_response response w).1 = Return l)
  ∧ ((∀ d l cd,
        response = VDict d →
        dict_get d "homeworks" = Some (VList l) →
        dict_get d "current_date" = Some cd → False) →
     ∃ e, (check_response response w).1 = Raise e
          ∧ (exn_class e = TypeError ∨ exn_class e = KeyError))
  ∧ ((∀ d, response ≠ VDict d) →
     ∃ text,
       (check_response response w).1 = Raise (Exn TypeError text)
       ∧ str_contains (type_str response) text = true)
  ∧ (∀ d,
       response = VDict d →
       dict_get d "homeworks" = None ∨ dict_get d "current_date" = None →
       ∃ text,
         (check_response response w).1 = Raise (Exn KeyError text)
         ∧ str_contains (keys_str d) text = true)
  ∧ (∀ d hw cd,
       response = VDict d →
       dict_get d "homeworks" = Some hw →
       dict_get d "current_date" = Some cd →
       (∀ l, hw ≠ VList l) →
       ∃ text,
         (check_response response w).1 = Raise (Exn TypeError text)
         ∧ str_contains (type_str hw) text = true).
Proof.
  assert (∀ d,
            response = VDict d →
            dict_get d "homeworks" = None ∨ dict_get d "current_date" = None →
            ∃ text,
              (check_response response w).1 = Raise (Exn KeyError text)
              ∧ str_contains (keys_str d) text = true) as Hkeys.
  { intros d -> Hmissing. unfold check_response, py_getitem, dict_has. run.
    destruct (dict_get d "homeworks") as [hw|] eqn:Hhw; run.
    2:{ eexists. split; [done|]. find_text. }
    destruct Hmissing as [|Hcd]; [done|]. rewrite Hcd. run.
    eexists. split; [done|]. find_text. }
  assert (∀ d hw cd,
            response = VDict d →
            dict_get d "homeworks" = Some hw →
            dict_get d "current_date" = Some cd →
            (∀ l, hw ≠ VList l) →
            ∃ text,
              (check_response response w).1 = Raise (Exn TypeError text)
              ∧ str_contains (type_str hw) text = true) as Hlist.
  { intros d hw cd -> Hhw Hcd Hshape.
    unfold check_response, py_getitem, dict_has. run.
    rewrite Hhw, Hcd. run.
    destruct hw as [| | | | |l|d']; try (eexists; split; [done|]; find_text).
    by destruct (Hshape l). }
  assert ((∀ d, response ≠ VDict d) →
          ∃ text,
            (check_response response w).1 = Raise (Exn TypeError text)
            ∧ str_contains (type_str response) text = true) as Hdict.
  { intros Hshape. unfold check_response. run.
    destruct response as [| | | | |l|d];
      try (eexists; split; [done|]; find_text).
    by destruct (Hshape d). }
  split; [|split; [|split; [|split]]]; try done.
  - intros d l cd -> Hhw Hcd. unfold check_response, py_getitem, dict_has.
    run. by rewrite Hhw, Hcd.
  - intros Hbad.
    destruct response as [| | | | |l|d];
      try (destruct Hdict as (text & -> & _); [done|]; eexists;
           split; [done|]; by left).
    destruct (dict_get d "homeworks") as [hw|] eqn:Hhw.
    2:{ destruct (Hkeys d eq_refl) as (text & -> & _); [by left|].
        eexists. split; [done|]. by right. }
    destruct (dict_get d "current_date") as [cd|] eqn:Hcd.
    2:{ destruct (Hkeys d eq_refl) as (text & -> & _); [by right|].
        eexists. split; [done|]. by right. }
    destruct (Hlist d hw cd eq_refl Hhw Hcd) as (text & -> & _).
    { intros l ->. by eapply Hbad. }
    eexists. split; [done|]. by left.
Qed.

End Validate.

(** ** parse_status *)

Section Format.
Context {py : Python}.

(** The codes of the verdict table. *)
Lemma verdict_of_known (status verdict : string) :
  verdict_of HOMEWORK_VERDICTS status = Some verdict ↔
  (status, verdict) ∈ HOMEWORK_VERDICTS.
Proof.
  unfold HOMEWORK_VERDICTS, verdict_of.
  rewrite !elem_of_cons, elem_of_nil. split.
  - repeat case_eqb; try done; intros [= <-]; auto.
  - intros [[= -> ->]|[[= -> ->]|[[= -> ->]|[]]]]; done.
Qed.

Lemma verdict_of_unknown (status : string) :
  VStr status ∉ [VStr "approved"; VStr "reviewing"; VStr "rejected"] →
  verdict_of HOMEWORK_VERDICTS status = None.
Proof.
  rewrite !not_elem_of_cons. intros (Ha & Hb & Hc & _).
  unfold HOMEWORK_VERDICTS, verdict_of.
  by repeat case_eqb.
Qed.

(** Formatting writes one log record and touches nothing else. *)
Lemma parse_status_world (homeworks : value) (w : World) :
  (parse_status homeworks w).2 =
  {| gets := gets w; sends := sends w;
     trace := trace w ++
       [Log INFO ("Извлекаем информацию о домашней работе "
                  +:+ "и получаем ее статус.")] |}.
Proof.
  unfold parse_status, py_in, py_keys, py_getitem, py_get,
    in_HOMEWORK_VERDICTS, HOMEWORK_VERDICTS_getitem, dict_has.
  run.
  destruct homeworks as [| | | |s|l|d]; run; try done.
  - destruct (str_contains _ s); done.
  - destruct (existsb _ l); done.
  - destruct (dict_get d "homework_name") as [name|]; run; [|done].
    destruct (dict_get d "status") as [status|]; run; [|done].
    destruct status as [| | | |s| |]; run; try done.
    destruct (verdict_of HOMEWORK_VERDICTS s); done.
Qed.

(** C3: for an entry that has the key [homework_name] and whose [status]
    is one of the three known codes, [parse_status] returns the template
    filled with the name and with the verdict the table gives for that
    code; the returned text contains both. *)
Theorem parse_status_known_status
    (d : dict) (name : value) (status : string) (w : World) :
  dict_get d "homework_name" = Some name →
  dict_get d "status" = Some (VStr status) →
  status ∈ ["approved"; "reviewing"; "rejected"] →
  ∃ verdict,
    (status, verdict) ∈ HOMEWORK_VERDICTS
    ∧ (parse_status (VDict d) w).1 =
      Return ("Изменился статус проверки работы " +:+ dquote
              +:+ str name +:+ dquote +:+ ". " +:+ verdict)
    ∧ ∀ message, (parse_status (VDict d) w).1 = Return message →
        str_contains (str name) message = true
        ∧ str_contains verdict message = true.
Proof.
  intros Hname Hstatus Hknown.
  assert (∃ verdict, verdict_of HOMEWORK_VERDICTS status = Some verdict)
    as [verdict Hverdict].
  { rewrite !elem_of_cons, elem_of_nil in Hknown.
    destruct Hknown as [->|[->|[->|[]]]]; by eexists. }
  exists verdict. split; [by apply verdict_of_known|].
  assert ((parse_status (VDict d) w).1 =
          Return ("Изменился статус проверки работы " +:+ dquote
                  +:+ str name +:+ dquote +:+ ". " +:+ verdict)) as Hrun.
  { unfold parse_status, py_in, py_keys, py_getitem, py_get,
      in_HOMEWORK_VERDICTS, HOMEWORK_VERDICTS_getitem, dict_has.
    run. rewrite Hname. run. rewrite Hstatus. run.
    rewrite Hverdict. by run. }
  split; [done|]. intros message. rewrite Hrun. intros [= <-].
  split; find_text.
  replace verdict with (verdict +:+ EmptyString) at 2; [find_text|].
  clear. induction verdict as [|c v IH]; [done|].
  change (String c v +:+ EmptyString) with (String c (v +:+ EmptyString)).
  by rewrite IH.
Qed.

(** C4, as the code has it: for an entry that has the key
    [homework_name], a [status] that is [None], or a hashable value
    outside the three known codes (the empty text among them), makes
    [parse_status] raise [CommonError]; an entry without the key
    [status] makes it raise [KeyError]. *)
Theorem parse_status_unknown_status (d : dict) (name : value) (w : World) :
  dict_get d "homework_name" = Some name →
  match dict_get d "status" with
  | Some status =>
      hashable status = true →
      status ∉ [VStr "approved"; VStr "reviewing"; VStr "rejected"] →
      ∃ text, (parse_status (VDict d) w).1 = Raise (Exn CommonError text)
  | None =>
      ∃ text, (parse_status (VDict d) w).1 = Raise (Exn KeyError text)
  end.
Proof.
  intros Hname.
  unfold parse_status, py_in, py_keys, py_getitem, py_get,
    in_HOMEWORK_VERDICTS, HOMEWORK_VERDICTS_getitem, dict_has.
  run. rewrite Hname. run.
  destruct (dict_get d "status") as [status|]; run; [|by eexists].
  intros Hhash Hout.
  destruct status as [| | | |s| |]; run; try done; try by eexists.
  rewrite (verdict_of_unknown s Hout). run. by eexists.
Qed.

End Format.

(** ** send_message *)

Section Notify.
Context {py : Python} {out : Outside}.

Lemma send_message_delivered (message : string) (w : World) :
  bot_send_message (sends w) = Delivered →
  ∃ info debug,
    send_message message w =
    (Return (),
     {| gets := gets w; sends := S (sends w);
        trace := trace w ++
          [Log INFO info; BotSend TELEGRAM_CHAT_ID message Delivered;
           Log DEBUG debug] |}).
Proof.
  intros Hsend. do 2 eexists. unfold send_message. run.
  rewrite Hsend. run. by rewrite <- !app_assoc.
Qed.

Lemma send_message_refused (message err : string) (w : World) :
  bot_send_message (sends w) = SendRaises err →
  ∃ info text,
    send_message message w =
    (Raise (Exn MessageNotSentError text),
     {| gets := gets w; sends := S (sends w);
        trace := trace w ++
          [Log INFO info; BotSend TELEGRAM_CHAT_ID message (SendRaises err);
           Log ERROR text] |}).
Proof.
  intros Hsend. do 2 eexists. unfold send_message. run.
  rewrite Hsend. run. by rewrite <- !app_assoc.
Qed.

(** Every call hands its text to the bot exactly once and makes no
    request; it fails only with [MessageNotSentError]. *)
Lemma send_message_footprint (message : string) (w : World) :
  let after := (send_message message w).2 in
  chat_texts (trace after) = (chat_texts (trace w) ++ [message])%list
  ∧ sends after = S (sends w)
  ∧ from_dates (trace after) = from_dates (trace w)
  ∧ gets after = gets w
  ∧ ∀ e, (send_message message w).1 = Raise e →
         exn_class e = MessageNotSentError.
Proof.
  destruct (bot_send_message (sends w)) as [|err] eqn:Hsend.
  - destruct (send_message_delivered message w Hsend) as (? & ? & ->).
    cbn. unfold chat_texts, from_dates. rewrite !omap_app. cbn.
    by rewrite app_nil_r.
  - destruct (send_message_refused message err w Hsend) as (? & ? & ->).
    cbn. unfold chat_texts, from_dates. rewrite !omap_app. cbn.
    rewrite app_nil_r. settle.
Qed.

End Notify.

(** ** One turn of the loop *)

Section Turn.
Context {py : Python} {out : Outside}.

Lemma cycle_body_stages (timestamp : value) (w : World) :
  cycle_body timestamp w =
  (response ← get_api_answer timestamp;
   homeworks ← check_response response;
   logging INFO ("Получен список работ " +:+ repr response) ;;
   (chosen_text homeworks ≫= send_message) ;;
   py_get response "current_date") w.
Proof.
  unfold cycle_body. rewrite !bind_run.
  destruct (get_api_answer timestamp w).1 as [response|e]; [|done].
  rewrite !bind_run.
  destruct (check_response response _).1 as [[|first rest]|e]; [| |done].
  - unfold chosen_text. by run.
  - done.
Qed.

(** What [check_response] lets through is a dict with both keys. *)
Lemma check_response_returns (response : value) (l : list value) (w : World) :
  (check_response response w).1 = Return l →
  ∃ d cd, response = VDict d
          ∧ dict_get d "homeworks" = Some (VList l)
          ∧ dict_get d "current_date" = Some cd.
Proof.
  unfold check_response, py_getitem, dict_has. run.
  destruct response as [| | | | | |d]; try done.
  destruct (dict_get d "homeworks") as [hw|] eqn:Hhw; run; [|done].
  destruct (dict_get d "current_date") as [cd|] eqn:Hcd; run; [|done].
  destruct hw; try done. intros [= ->]. by exists d, cd.
Qed.

Lemma cycle_body_run (timestamp : value) (w : World) :
  body_run timestamp w (cycle_body timestamp w).1 (cycle_body timestamp w).2.
Proof.
  rewrite cycle_body_stages, bind_run.
  destruct (get_api_answer timestamp w) as [[response|e] w1] eqn:Hfetch;
    cbn [fst snd]; [|by eapply fetch_fails].
  rewrite bind_run.
  destruct (check_response response w1) as [[homeworks|e] w2] eqn:Hcheck;
    cbn [fst snd]; [|by eapply validate_fails].
  rewrite bind_run. cbn [logging emit fst snd]. rewrite !bind_run.
  fold (logged w2 [Log INFO ("Получен список работ " +:+ repr response)]).
  destruct (chosen_text homeworks _) as [[message|e] w3] eqn:Hchoose;
    cbn [fst snd]; [|by eapply format_fails].
  destruct (send_message message w3) as [[[]|e] w4] eqn:Hsend;
    cbn [fst snd]; [|by eapply notify_fails].
  destruct (check_response_returns response homeworks w1)
    as (d & cd & -> & _ & Hcd); [by rewrite Hcheck|].
  eapply turn_succeeds; eauto.
Qed.

End Turn.

(** ** What each stage can raise *)

Section Raises.
Context {py : Python} {out : Outside}.

Lemma get_api_answer_raises (timestamp : value) (w : World) (e : exn) :
  (get_api_answer timestamp w).1 = Raise e →
  exn_class e ∈ [WrongStatusCodeError; GeneralError; ConnectionError;
                 ValueError; RecursionError].
Proof.
  rewrite !elem_of_cons. unfold get_api_answer. run.
  destruct (requests_get (gets w)) as [err|r]; run.
  { intros [= <-]. auto. }
  case_bool_decide; run.
  { intros [= <-]. auto. }
  destruct (json r); run; [done|..]; intros [= <-]; auto 8.
Qed.

Lemma check_response_raises (response : value) (w : World) (e : exn) :
  (check_response response w).1 = Raise e →
  exn_class e ∈ [TypeError; KeyError].
Proof.
  rewrite !elem_of_cons. unfold check_response, py_getitem, dict_has. run.
  destruct response as [| | | | | |d]; try (intros [= <-]; by auto).
  destruct (dict_get d "homeworks") as [hw|]; run;
    [|intros [= <-]; by auto].
  destruct (dict_get d "current_date"); run; [|intros [= <-]; by auto].
  destruct hw; try done; intros [= <-]; auto.
Qed.

Lemma parse_status_raises (homeworks : value) (w : World) (e : exn) :
  (parse_status homeworks w).1 = Raise e →
  exn_class e ∈ [TypeError; KeyError; AttributeError; CommonError].
Proof.
  rewrite !elem_of_cons.
  unfold parse_status, py_in, py_keys, py_getitem, py_get,
    in_HOMEWORK_VERDICTS, HOMEWORK_VERDICTS_getitem, dict_has.
  run.
  destruct homeworks as [| | | |s|l|d]; run;
    try (intros [= <-]; by auto 6).
  - destruct (str_contains _ s); intros [= <-]; auto 6.
  - destruct (existsb _ l); intros [= <-]; auto 6.
  - destruct (dict_get d "homework_name") as [name|]; run;
      [|intros [= <-]; by auto 6].
    destruct (dict_get d "status") as [status|]; run;
      [|intros [= <-]; by auto 6].
    destruct status as [| | | |s| |]; run;
      try (intros [= <-]; by auto 6).
    destruct (verdict_of HOMEWORK_VERDICTS s); run; [done|].
    intros [= <-]; auto 6.
Qed.

Lemma chosen_text_raises (homeworks : list value) (w : World) (e : exn) :
  (chosen_text homeworks w).1 = Raise e →
  exn_class e ∈ [TypeError; KeyError; AttributeError; CommonError].
Proof.
  destruct homeworks as [|first rest]; [done|]. apply parse_status_raises.
Qed.

Lemma chosen_text_world (homeworks : list value) (w : World) :
  ∃ text, (chosen_text homeworks w).2 = logged w [Log INFO text]
          ∨ (chosen_text homeworks w).2 = logged w [Log DEBUG text].
Proof.
  destruct homeworks as [|first rest]; eexists.
  - right. done.
  - left. apply parse_status_world.
Qed.

(** The family of [GeneralError], class by class. *)
Lemma general_family (c : exc_class) :
  issubclass c GeneralError = true ↔
  c ∈ [GeneralError; ConnectionError; WrongStatusCodeError;
       MessageNotSentError].
Proof.
  rewrite !elem_of_cons, elem_of_nil.
  destruct c; vm_compute; intuition congruence.
Qed.

End Raises.

(** ** From the [try] block to the whole turn *)

(** Replaces the world a stage ends in by what the stage made of the
    world it started in. *)
Ltac worlds :=
  repeat match goal with
         | Hf : get_api_answer ?ts ?w = (_, ?w1) |- _ =>
             is_var w1;
             let info := fresh "info" in
             let Hw := fresh "Hw" in
             destruct (get_api_answer_world ts w) as [info Hw];
             rewrite Hf in Hw; cbn [snd] in Hw; subst w1
         | Hf : check_response ?r ?w = (_, ?w1) |- _ =>
             is_var w1;
             let Hw := fresh "Hw" in
             pose proof (check_response_world r w) as Hw;
             rewrite Hf in Hw; cbn [snd] in Hw; subst w1
         | Hf : chosen_text ?hs ?w = (_, ?w1) |- _ =>
             is_var w1;
             let text := fresh "text" in
             let Hw := fresh "Hw" in
             destruct (chosen_text_world hs w) as [text [Hw|Hw]];
             rewrite Hf in Hw; cbn [snd] in Hw; subst w1
         end.

(** Evaluates what a trace shows once its shape is known. *)
Ltac observe :=
  unfold chat_texts, delivered_texts, from_dates, error_logs, logged in *;
  cbn [trace gets sends fst snd] in *;
  rewrite ?omap_app in *; cbn in *;
  rewrite ?app_nil_r in *; rewrite <- ?app_assoc in *; cbn in *.

(** Decides [isinstance] for an exception whose class is one of a list. *)
Ltac by_class Hin :=
  unfold isinstance;
  rewrite ?elem_of_cons, ?elem_of_nil in Hin;
  destruct_or! Hin; try done; rewrite Hin; by vm_compute.

Section Routing.
Context {py : Python} {out : Outside}.

Lemma cycle_after_success (timestamp v : value) (w w1 : World) :
  cycle_body timestamp w = (Return v, w1) →
  cycle timestamp w = (Return v, logged w1 [Sleep RETRY_PERIOD]).
Proof.
  intros Hbody. unfold cycle. rewrite try_finally_run.
  unfold try_except, try_except_else. by rewrite Hbody.
Qed.

Lemma cycle_after_other (timestamp : value) (e : exn) (w w1 : World) :
  cycle_body timestamp w = (Raise e, w1) →
  isinstance e GeneralError = false →
  isinstance e Exception = true →
  cycle timestamp w =
  (Return timestamp,
   logged w1 [Log ERROR (str_exn e); Sleep RETRY_PERIOD]).
Proof.
  intros Hbody Hgeneral Hexception. unfold cycle. rewrite try_finally_run.
  unfold try_except, try_except_else. rewrite Hbody.
  cbn [dispatch cycle_clauses]. rewrite Hgeneral, Hexception.
  unfold logged. run. by rewrite <- app_assoc.
Qed.

Lemma cycle_after_general (timestamp : value) (e : exn) (w w1 : World) :
  cycle_body timestamp w = (Raise e, w1) →
  isinstance e GeneralError = true →
  let notified :=
    send_message (str_exn e) (logged w1 [Log ERROR (str_exn e)]) in
  cycle timestamp w =
  (match notified.1 with
   | Return _ => Return timestamp
   | Raise e' => Raise e'
   end,
   logged notified.2 [Sleep RETRY_PERIOD]).
Proof.
  intros Hbody Hgeneral. unfold cycle. rewrite try_finally_run.
  unfold try_except, try_except_else. rewrite Hbody.
  cbn [dispatch cycle_clauses]. rewrite Hgeneral. cbv beta.
  rewrite !bind_run. cbn [logging emit fst snd].
  fold (logged w1 [Log ERROR (str_exn e)]).
  by destruct (send_message _ _).1.
Qed.

(** Whatever the [try] block raises is an [Exception]; when it is not
    of the [GeneralError] family, the block has not called the bot. *)
Lemma body_failure (timestamp : value) (e : exn) (w w1 : World) :
  cycle_body timestamp w = (Raise e, w1) →
  isinstance e Exception = true
  ∧ (isinstance e GeneralError = false →
     chat_texts (trace w1) = chat_texts (trace w) ∧ sends w1 = sends w).
Proof.
  intros Hbody. pose proof (cycle_body_run timestamp w) as Hrun.
  rewrite Hbody in Hrun. cbn [fst snd] in Hrun.
  inversion Hrun as [? ? Hfetch|? ? ? ? Hfetch Hcheck
                     |? ? ? ? ? ? ? Hfetch Hcheck Hchoose
                     |? ? ? ? ? ? ? ? ? Hfetch Hcheck Hchoose Hsend|];
    subst.
  - pose proof (get_api_answer_raises timestamp w e) as Hin.
    rewrite Hfetch in Hin. specialize (Hin eq_refl). worlds.
    split; [by_class Hin|]. intros _. by observe.
  - pose proof (check_response_raises response w0 e) as Hin.
    rewrite Hcheck in Hin. specialize (Hin eq_refl). worlds.
    split; [by_class Hin|]. intros _. by observe.
  - pose proof (chosen_text_raises homeworks
                  (logged w2 [Log INFO info]) e) as Hin.
    rewrite Hchoose in Hin. specialize (Hin eq_refl). worlds.
    all: split; [by_class Hin|]; intros _; by observe.
  - pose proof (send_message_footprint message w3) as (_ & _ & _ & _ & Hin).
    rewrite Hsend in Hin. specialize (Hin e eq_refl).
    split; unfold isinstance; rewrite Hin; by vm_compute.
Qed.

(** Every turn makes exactly one request, and it carries the cursor the
    turn started with. *)
Lemma body_requests (timestamp : value) (w : World) :
  from_dates (trace (cycle_body timestamp w).2) =
  (from_dates (trace w) ++ [Some timestamp])%list.
Proof.
  pose proof (cycle_body_run timestamp w) as Hrun.
  destruct (cycle_body timestamp w) as [r w']. cbn [fst snd] in *.
  inversion Hrun as [? ? Hfetch|? ? ? ? Hfetch Hcheck
                     |? ? ? ? ? ? ? Hfetch Hcheck Hchoose
                     |? ? ? ? ? ? ? ? ? Hfetch Hcheck Hchoose Hsend
                     |? ? ? ? ? ? ? ? ? Hfetch Hcheck Hchoose Hsend];
    subst;
    try (pose proof (send_message_footprint message w3)
           as (_ & _ & Hsame & _); rewrite Hsend in Hsame;
         cbn [snd] in Hsame; rewrite Hsame);
    worlds; by observe.
Qed.

Lemma cycle_requests (timestamp : value) (w : World) :
  from_dates (trace (cycle timestamp w).2) =
  (from_dates (trace w) ++ [Some timestamp])%list.
Proof.
  pose proof (body_requests timestamp w) as Hbody.
  destruct (cycle_body timestamp w) as [[v|e] w1] eqn:Hrun;
    cbn [snd] in Hbody.
  - rewrite (cycle_after_success _ _ _ _ Hrun). by observe.
  - destruct (body_failure _ _ _ _ Hrun) as [Hexception _].
    destruct (isinstance e GeneralError) eqn:Hgeneral.
    + rewrite (cycle_after_general _ _ _ _ Hrun Hgeneral). cbn [snd].
      pose proof (send_message_footprint (str_exn e)
                    (logged w1 [Log ERROR (str_exn e)]))
        as (_ & _ & Hsame & _).
      cbn zeta in Hsame. observe. by rewrite Hsame.
    + rewrite (cycle_after_other _ _ _ _ Hrun Hgeneral Hexception).
      by observe.
Qed.

End Routing.

(** ** The loop *)

Section Loop.
Context {py : Python} {out : Outside}.

Lemma get_api_answer_ok (timestamp body : value) (r : Response) (w : World) :
  requests_get (gets w) = GetResponse r →
  status_code r = 200 →
  json r = Parsed body →
  (get_api_answer timestamp w).1 = Return body.
Proof.
  intros Hget Hcode Hjson. unfold get_api_answer. run.
  rewrite Hget. run. unfold HTTPStatus_OK. rewrite Hcode. run.
  by rewrite Hjson.
Qed.

Lemma get_api_answer_returns (timestamp body : value) (w : World) :
  (get_api_answer timestamp w).1 = Return body →
  ∃ r, requests_get (gets w) = GetResponse r
       ∧ status_code r = 200 ∧ json r = Parsed body.
Proof.
  unfold get_api_answer. run.
  destruct (requests_get (gets w)) as [err|r]; run; [done|].
  unfold HTTPStatus_OK. case_bool_decide as Hcode; run; [done|].
  destruct (json r) as [v|err|err|err] eqn:Hjson; run; try done.
  intros [= ->]. by exists r.
Qed.

Lemma check_response_no_current_date (d : dict) (w : World) :
  dict_get d "current_date" = None →
  ∃ text, (check_response (VDict d) w).1 = Raise (Exn KeyError text).
Proof.
  intros Hcd. unfold check_response, py_getitem, dict_has. run.
  destruct (dict_get d "homeworks"); run; [|by eexists].
  rewrite Hcd. by eexists.
Qed.

Lemma body_when_validate_fails
    (timestamp response : value) (e : exn) (w : World) :
  (get_api_answer timestamp w).1 = Return response →
  (check_response response (get_api_answer timestamp w).2).1 = Raise e →
  cycle_body timestamp w =
  (Raise e, (check_response response (get_api_answer timestamp w).2).2).
Proof.
  intros Hfetch Hcheck. rewrite cycle_body_stages, bind_run, Hfetch.
  by rewrite bind_run, Hcheck.
Qed.

(** With the three variables set and the bot built, [main] is its loop,
    started at the time the clock reads. *)
Lemma main_enters_loop (turns : nat) (w : World) :
  truthy PRACTICUM_TOKEN = true →
  truthy TELEGRAM_TOKEN = true →
  truthy TELEGRAM_CHAT_ID = true →
  telegram_Bot = None →
  ∃ info,
    main turns w = main_loop turns (VInt time_time) (logged w [Log INFO info]).
Proof.
  intros Hpracticum Htoken Hchat Hbot. eexists.
  unfold main, check_tokens. rewrite !bind_run. cbn [logging emit fst snd].
  cbn [forallb mret M_ret fst snd]. rewrite Hpracticum, Htoken, Hchat.
  cbn [andb negb]. by rewrite Hbot.
Qed.

Lemma main_loop_step (turns : nat) (timestamp : value) (w : World) :
  main_loop (S turns) timestamp w =
  match (cycle timestamp w).1 with
  | Return timestamp' => main_loop turns timestamp' (cycle timestamp w).2
  | Raise e => (Raise e, (cycle timestamp w).2)
  end.
Proof. cbn [main_loop]. apply bind_run. Qed.

(** After a turn that leaves the cursor at [v], the next request asks
    for everything since [v]. *)
Lemma next_request (timestamp v : value) (w : World) :
  (cycle timestamp w).1 = Return v →
  from_dates (trace (main_loop 2 timestamp w).2) =
  (from_dates (trace w) ++ [Some timestamp; Some v])%list.
Proof.
  intros Hturn. rewrite main_loop_step, Hturn, main_loop_step.
  replace (from_dates (trace w) ++ [Some timestamp; Some v])%list
    with (from_dates (trace (cycle timestamp w).2) ++ [Some v])%list
    by (by rewrite cycle_requests, <- app_assoc).
  rewrite <- cycle_requests. by destruct (cycle v _).1.
Qed.

(** C1, as the code has it: when the [try] block of a turn raises an
    exception of the [GeneralError] family and Telegram refuses the
    notification sent from the [except GeneralError] clause, the
    [MessageNotSentError] raised inside that clause is not offered to
    [except Exception]; after the [finally] sleep it leaves the loop,
    which ends there however many turns were to follow. *)
Theorem loop_left_when_notification_fails
    (timestamp : value) (e : exn) (w w1 : World) (refusal : string)
    (turns : nat) :
  cycle_body timestamp w = (Raise e, w1) →
  isinstance e GeneralError = true →
  bot_send_message (sends w1) = SendRaises refusal →
  ∃ text,
    (main_loop (S turns) timestamp w).1 = Raise (Exn MessageNotSentError text)
    ∧ error_logs (trace (main_loop (S turns) timestamp w).2) =
      (error_logs (trace w1) ++ [str_exn e; text])%list
    ∧ last (trace (main_loop (S turns) timestamp w).2) =
      Some (Sleep RETRY_PERIOD).
Proof.
  intros Hbody Hgeneral Hsend.
  rewrite main_loop_step, (cycle_after_general _ _ _ _ Hbody Hgeneral).
  cbn zeta.
  destruct (send_message_refused (str_exn e) refusal
              (logged w1 [Log ERROR (str_exn e)]) Hsend)
    as (info & text & ->).
  exists text. cbn [fst snd]. split; [done|]. split.
  - by observe.
  - unfold logged. cbn [trace]. by rewrite last_snoc.
Qed.

(** A request that fails is one way into that clause. *)
Lemma body_when_request_fails (timestamp : value) (err : string) (w : World) :
  requests_get (gets w) = GetRaises err →
  ∃ e w1, cycle_body timestamp w = (Raise e, w1)
          ∧ exn_class e = ConnectionError
          ∧ sends w1 = sends w.
Proof.
  intros Hget. rewrite cycle_body_stages, bind_run.
  destruct (get_api_answer_world timestamp w) as [info Hw].
  rewrite Hw. clear Hw. unfold get_api_answer. run. rewrite Hget. run.
  by do 2 eexists.
Qed.

(** C6: when a turn's [try] block completes (the request, the validation
    and the notification all succeed), the response of that turn was a
    dict, the cursor the turn ends with is the value it reports as
    [current_date], and the next request asks for everything since that
    value. *)
Theorem cursor_is_server_time (timestamp v : value) (w w1 : World) :
  cycle_body timestamp w = (Return v, w1) →
  ∃ r d,
    requests_get (gets w) = GetResponse r
    ∧ json r = Parsed (VDict d)
    ∧ dict_get d "current_date" = Some v
    ∧ (cycle timestamp w).1 = Return v
    ∧ from_dates (trace (main_loop 2 timestamp w).2) =
      (from_dates (trace w) ++ [Some timestamp; Some v])%list.
Proof.
  intros Hbody. pose proof (cycle_body_run timestamp w) as Hrun.
  rewrite Hbody in Hrun. cbn [fst snd] in Hrun.
  inversion Hrun as [| | | |? ? ? ? ? ? ? ? ? Hfetch Hcheck _ _ Hdate].
  subst.
  destruct (get_api_answer_returns timestamp response w)
    as (r & Hget & _ & Hjson); [by rewrite Hfetch|].
  destruct (check_response_returns response homeworks w0)
    as (d & cd & -> & _ & Hcd); [by rewrite Hcheck|].
  unfold py_get in Hdate. rewrite Hcd in Hdate. injection Hdate as <-.
  exists r, d. repeat split; try done.
  - by rewrite (cycle_after_success _ _ _ _ Hbody).
  - apply next_request. by rewrite (cycle_after_success _ _ _ _ Hbody).
Qed.

(** C7: a failure of the [try] block is routed by its class.  An
    exception of the [GeneralError] family is written to the log at
    level ERROR and its text is handed to the bot, reaching the chat
    when Telegram accepts it; any other exception is written to the log
    only, and nothing is handed to the bot in that turn.  The family is
    [GeneralError], [ConnectionError], [WrongStatusCodeError] and
    [MessageNotSentError]; what [check_response] and [parse_status]
    raise is outside it. *)
Theorem failures_routed_by_kind
    (timestamp : value) (e : exn) (w w1 : World) :
  cycle_body timestamp w = (Raise e, w1) →
  let after := (cycle timestamp w).2 in
  (isinstance e GeneralError = true →
     (∃ more, error_logs (trace after) =
              (error_logs (trace w1) ++ str_exn e :: more)%list)
     ∧ chat_texts (trace after) =
       (chat_texts (trace w1) ++ [str_exn e])%list
     ∧ (bot_send_message (sends w1) = Delivered →
        delivered_texts (trace after) =
        (delivered_texts (trace w1) ++ [str_exn e])%list))
  ∧ (isinstance e GeneralError = false →
     (cycle timestamp w).1 = Return timestamp
     ∧ error_logs (trace after) =
       (error_logs (trace w1) ++ [str_exn e])%list
     ∧ chat_texts (trace after) = chat_texts (trace w)
     ∧ sends after = sends w)
  ∧ (∀ c, issubclass c GeneralError = true ↔
          c ∈ [GeneralError; ConnectionError; WrongStatusCodeError;
               MessageNotSentError])
  ∧ (∀ response w' e',
       (check_response response w').1 = Raise e' →
       isinstance e' GeneralError = false)
  ∧ (∀ homeworks w' e',
       (parse_status homeworks w').1 = Raise e' →
       isinstance e' GeneralError = false).
Proof.
  intros Hbody after. subst after.
  destruct (body_failure _ _ _ _ Hbody) as [Hexception Hquiet].
  split; [|split; [|split; [|split]]].
  - intros Hgeneral.
    rewrite (cycle_after_general _ _ _ _ Hbody Hgeneral). cbn zeta.
    destruct (bot_send_message (sends w1)) as [|refusal] eqn:Hsend.
    + destruct (send_message_delivered (str_exn e)
                  (logged w1 [Log ERROR (str_exn e)]) Hsend)
        as (info & debug & ->).
      observe. split; [by exists []|done].
    + destruct (send_message_refused (str_exn e) refusal
                  (logged w1 [Log ERROR (str_exn e)]) Hsend)
        as (info & text & ->).
      observe. split; [by eexists|done].
  - intros Hgeneral. specialize (Hquiet Hgeneral) as [Hchat Hsends].
    rewrite (cycle_after_other _ _ _ _ Hbody Hgeneral Hexception).
    by observe.
  - apply general_family.
  - intros response w' e' Hraise.
    pose proof (check_response_raises response w' e' Hraise) as Hin.
    by_class Hin.
  - intros homeworks w' e' Hraise.
    pose proof (parse_status_raises homeworks w' e' Hraise) as Hin.
    by_class Hin.
Qed.

(** C8: when the response of a turn is a dict without the key
    [current_date], the turn ends in an error that is only logged: one
    record at level ERROR, nothing handed to the bot, the cursor as it
    was, and the sleep before the next turn. *)
Theorem missing_current_date_logged_only
    (timestamp : value) (r : Response) (d : dict) (w : World) :
  requests_get (gets w) = GetResponse r →
  status_code r = 200 →
  json r = Parsed (VDict d) →
  dict_get d "current_date" = None →
  let after := (cycle timestamp w).2 in
  (cycle timestamp w).1 = Return timestamp
  ∧ chat_texts (trace after) = chat_texts (trace w)
  ∧ sends after = sends w
  ∧ (∃ text, error_logs (trace after) =
             (error_logs (trace w) ++ [text])%list)
  ∧ last (trace after) = Some (Sleep RETRY_PERIOD).
Proof.
  intros Hget Hcode Hjson Hcd after. subst after.
  pose proof (get_api_answer_ok timestamp _ r w Hget Hcode Hjson) as Hfetch.
  destruct (check_response_no_current_date d
              (get_api_answer timestamp w).2 Hcd) as [text Hcheck].
  pose proof (body_when_validate_fails _ _ _ _ Hfetch Hcheck) as Hbody.
  rewrite check_response_world in Hbody.
  destruct (get_api_answer_world timestamp w) as [info Hw].
  rewrite Hw in Hbody. clear Hw. cbn [gets sends trace] in Hbody.
  rewrite (cycle_after_other _ _ _ _ Hbody); [|done..].
  observe. rewrite last_app. cbn. settle.
Qed.

(** C9, as the code has it: when the response of a turn is a dict
    without the key [current_date], [check_response] raises before the
    cursor is assigned, so the cursor keeps its value and the next
    request carries the same [from_date] as this one. *)
Theorem missing_current_date_keeps_cursor
    (timestamp : value) (r : Response) (d : dict) (w : World) :
  requests_get (gets w) = GetResponse r →
  status_code r = 200 →
  json r = Parsed (VDict d) →
  dict_get d "current_date" = None →
  (main_loop 1 timestamp w).1 = Return timestamp
  ∧ from_dates (trace (main_loop 2 timestamp w).2) =
    (from_dates (trace w) ++ [Some timestamp; Some timestamp])%list.
Proof.
  intros Hget Hcode Hjson Hcd.
  pose proof (get_api_answer_ok timestamp _ r w Hget Hcode Hjson) as Hfetch.
  destruct (check_response_no_current_date d
              (get_api_answer timestamp w).2 Hcd) as [text Hcheck].
  pose proof (body_when_validate_fails _ _ _ _ Hfetch Hcheck) as Hbody.
  assert ((cycle timestamp w).1 = Return timestamp) as Hturn
    by (by rewrite (cycle_after_other _ _ _ _ Hbody)).
  split; [|by apply next_request].
  rewrite main_loop_step, Hturn. done.
Qed.

(** C10: [check_response] looks at the key [current_date] and not at
    what it is bound to.  For a response that is a dict with [homeworks]
    bound to a list and [current_date] bound to any value at all,
    validation returns the list; a turn that completes on that response
    ends with that value as cursor and the next request carries it as
    [from_date]; and with an empty list and a message Telegram accepts,
    the turn does complete. *)
Theorem any_current_date_becomes_cursor
    (timestamp cd : value) (r : Response) (d : dict) (l : list value)
    (w : World) :
  requests_get (gets w) = GetResponse r →
  status_code r = 200 →
  json r = Parsed (VDict d) →
  dict_get d "homeworks" = Some (VList l) →
  dict_get d "current_date" = Some cd →
  (∀ w', (check_response (VDict d) w').1 = Return l)
  ∧ (∀ v w1,
       cycle_body timestamp w = (Return v, w1) →
       v = cd
       ∧ (cycle timestamp w).1 = Return cd
       ∧ from_dates (trace (main_loop 2 timestamp w).2) =
         (from_dates (trace w) ++ [Some timestamp; Some cd])%list)
  ∧ (l = [] → bot_send_message (sends w) = Delivered →
     (cycle_body timestamp w).1 = Return cd).
Proof.
  intros Hget Hcode Hjson Hhw Hcd.
  pose proof (get_api_answer_ok timestamp _ r w Hget Hcode Hjson) as Hfetch.
  assert (∀ w', (check_response (VDict d) w').1 = Return l) as Hcheck.
  { intros w'. unfold check_response, py_getitem, dict_has. run.
    by rewrite Hhw, Hcd. }
  split; [done|]. split.
  - intros v w1 Hbody.
    assert (v = cd) as ->.
    { pose proof Hbody as Hrun.
      rewrite cycle_body_stages, bind_run, Hfetch in Hrun.
      rewrite bind_run, Hcheck, !bind_run in Hrun.
      cbn [logging emit fst snd] in Hrun.
      destruct (chosen_text l _).1; [|done].
      destruct (send_message _ _).1; [|done].
      unfold py_get in Hrun. rewrite Hcd in Hrun. by injection Hrun. }
    assert ((cycle timestamp w).1 = Return cd) as Hturn
      by (by rewrite (cycle_after_success _ _ _ _ Hbody)).
    split; [done|]. split; [done|]. by apply next_request.
  - intros -> Hsend.
    rewrite cycle_body_stages, bind_run, Hfetch.
    rewrite bind_run, Hcheck, !bind_run.
    cbn [logging emit fst snd chosen_text]. rewrite !bind_run.
    cbn [logging emit fst snd].
    destruct (get_api_answer_world timestamp w) as [info ->].
    rewrite check_response_world. cbn [gets sends trace mret M_ret fst snd].
    match goal with
    | |- context [send_message ?m ?w0] =>
        destruct (send_message_delivered m w0) as (? & ? & ->);
          [exact Hsend|]
    end.
    cbn [fst snd]. unfold py_get. by rewrite Hcd.
Qed.

End Loop.

(** * Further properties of the bot *)

Ltac observe_all :=
  unfold sleeps, chat_ids, requests, critical_logs in *; observe.

(** ** How the loop can end *)

Section Leaving.
Context {py : Python} {out : Outside}.

(** The only exception a turn lets out is the one [send_message] raises
    in the [except GeneralError] clause. *)
Lemma cycle_raises (timestamp : value) (w : World) (e : exn) :
  (cycle timestamp w).1 = Raise e → exn_class e = MessageNotSentError.
Proof.
  destruct (cycle_body timestamp w) as [[v|e'] w1] eqn:Hbody.
  - by rewrite (cycle_after_success _ _ _ _ Hbody).
  - destruct (body_failure _ _ _ _ Hbody) as [Hexception _].
    destruct (isinstance e' GeneralError) eqn:Hgeneral.
    + rewrite (cycle_after_general _ _ _ _ Hbody Hgeneral). cbn [fst].
      pose proof (send_message_footprint (str_exn e')
                    (logged w1 [Log ERROR (str_exn e')]))
        as (_ & _ & _ & _ & Hclass).
      destruct (send_message _ _).1 as [|e'']; [done|].
      intros [= <-]. by apply Hclass.
    + by rewrite (cycle_after_other _ _ _ _ Hbody Hgeneral Hexception).
Qed.

Lemma main_loop_raises (turns : nat) (timestamp : value) (w : World) (e : exn) :
  (main_loop turns timestamp w).1 = Raise e →
  exn_class e = MessageNotSentError.
Proof.
  revert timestamp w. induction turns as [|turns IH]; intros timestamp w.
  - done.
  - rewrite main_loop_step.
    destruct (cycle timestamp w).1 as [v|e'] eqn:Hturn.
    + apply IH.
    + intros [= <-]. by eapply cycle_raises.
Qed.

(** X3: the loop of [main] is left by no exception other than
    [MessageNotSentError]; once the bot is built, [main] itself ends only
    with that one or with the [SystemExit] of missing tokens. *)
Theorem main_ends_only_two_ways (turns : nat) (w : World) (e : exn) :
  (∀ timestamp,
     (main_loop turns timestamp w).1 = Raise e →
     exn_class e = MessageNotSentError)
  ∧ (telegram_Bot = None →
     (main turns w).1 = Raise e →
     exn_class e ∈ [SystemExit; MessageNotSentError]).
Proof.
  split; [intros timestamp; apply main_loop_raises|].
  intros Hbot. rewrite !elem_of_cons. unfold main, check_tokens.
  rewrite !bind_run. cbn [logging emit mret M_ret fst snd].
  destruct (forallb truthy _); cbn [negb].
  - rewrite Hbot. intros Hloop. apply main_loop_raises in Hloop. auto.
  - rewrite bind_run. cbn [logging emit fst snd]. intros [= <-]. auto.
Qed.

(** X22: a turn that does not end the loop leaves the cursor as it was,
    unless its [try] block ran to the end; then the cursor is what the
    block assigned. *)
Theorem cursor_moves_only_on_success (timestamp v : value) (w : World) :
  (cycle timestamp w).1 = Return v →
  v = timestamp
  ∨ ∃ w1, cycle_body timestamp w = (Return v, w1).
Proof.
  destruct (cycle_body timestamp w) as [[v'|e] w1] eqn:Hbody.
  - rewrite (cycle_after_success _ _ _ _ Hbody). intros [= <-]. eauto.
  - destruct (body_failure _ _ _ _ Hbody) as [Hexception _].
    destruct (isinstance e GeneralError) eqn:Hgeneral.
    + rewrite (cycle_after_general _ _ _ _ Hbody Hgeneral). cbn [fst].
      destruct (send_message _ _).1; [|done]. intros [= <-]. by left.
    + rewrite (cycle_after_other _ _ _ _ Hbody Hgeneral Hexception).
      intros [= <-]. by left.
Qed.

End Leaving.

(** ** The pace of the loop *)

Section Sent.
Context {py : Python} {out : Outside}.

(** Whatever Telegram answers, a call of [send_message] leaves a record,
    one call of the bot and a second record. *)
Lemma send_message_world (message : string) (w : World) :
  ∃ info lvl text,
    (send_message message w).2 =
    {| gets := gets w; sends := S (sends w);
       trace := trace w ++
         [Log INFO info;
          BotSend TELEGRAM_CHAT_ID message (bot_send_message (sends w));
          Log lvl text] |}.
Proof.
  destruct (bot_send_message (sends w)) as [|err] eqn:Hsend.
  - destruct (send_message_delivered message w Hsend) as (? & ? & ->).
    by do 3 eexists.
  - destruct (send_message_refused message err w Hsend) as (? & ? & ->).
    by do 3 eexists.
Qed.

End Sent.

(** As [worlds], for the stage that sends as well. *)
Ltac worlds_all :=
  worlds;
  repeat match goal with
         | Hf : send_message ?m ?w = (_, ?w1) |- _ =>
             is_var w1;
             let info := fresh "info" in
             let lvl := fresh "lvl" in
             let text := fresh "text" in
             let Hw := fresh "Hw" in
             destruct (send_message_world m w) as (info & lvl & text & Hw);
             rewrite Hf in Hw; cbn [snd] in Hw; subst w1
         end.

Section Pace.
Context {py : Python} {out : Outside}.

Lemma body_counts (timestamp : value) (w : World) :
  gets (cycle_body timestamp w).2 = S (gets w)
  ∧ sleeps (trace (cycle_body timestamp w).2) = sleeps (trace w).
Proof.
  pose proof (cycle_body_run timestamp w) as Hrun.
  destruct (cycle_body timestamp w) as [r w']. cbn [fst snd] in *.
  inversion Hrun; subst; worlds_all; by observe_all.
Qed.

(** The [try] block asks the bot at most once, and exactly once when it
    runs to the end. *)
Lemma body_sends (timestamp : value) (w : World) :
  (sends (cycle_body timestamp w).2 ≤ S (sends w))%nat
  ∧ (∀ v, (cycle_body timestamp w).1 = Return v →
          sends (cycle_body timestamp w).2 = S (sends w)).
Proof.
  pose proof (cycle_body_run timestamp w) as Hrun.
  destruct (cycle_body timestamp w) as [r w']. cbn [fst snd] in *.
  inversion Hrun; subst; worlds_all; observe_all; split; try lia; done.
Qed.

Lemma cycle_counts (timestamp : value) (w : World) :
  gets (cycle timestamp w).2 = S (gets w)
  ∧ sleeps (trace (cycle timestamp w).2) =
    (sleeps (trace w) ++ [RETRY_PERIOD])%list.
Proof.
  pose proof (body_counts timestamp w) as [Hgets Hsleeps].
  destruct (cycle_body timestamp w) as [[v|e] w1] eqn:Hbody;
    cbn [snd] in Hgets, Hsleeps.
  - rewrite (cycle_after_success _ _ _ _ Hbody). observe_all.
    by rewrite Hgets, Hsleeps.
  - destruct (body_failure _ _ _ _ Hbody) as [Hexception _].
    destruct (isinstance e GeneralError) eqn:Hgeneral.
    + rewrite (cycle_after_general _ _ _ _ Hbody Hgeneral). cbn [snd].
      destruct (send_message_world (str_exn e)
                  (logged w1 [Log ERROR (str_exn e)]))
        as (info & lvl & text & ->).
      observe_all. by rewrite Hgets, Hsleeps.
    + rewrite (cycle_after_other _ _ _ _ Hbody Hgeneral Hexception).
      observe_all. by rewrite Hgets, Hsleeps.
Qed.

(** X20: the loop makes one request per turn and pauses [RETRY_PERIOD]
    seconds after each, also after the turn that ends it: after any
    number of turns asked for, the turns run are as many as the requests
    made and as the pauses taken, and they are all the turns asked for
    when the loop is still running. *)
Theorem main_loop_paced (turns : nat) (timestamp : value) (w : World) :
  let after := (main_loop turns timestamp w).2 in
  ∃ run : nat,
    (run ≤ turns)%nat
    ∧ gets after = (gets w + run)%nat
    ∧ sleeps (trace after) =
      (sleeps (trace w) ++ replicate run RETRY_PERIOD)%list
    ∧ (∀ v, (main_loop turns timestamp w).1 = Return v → run = turns).
Proof.
  revert timestamp w. induction turns as [|turns IH]; intros timestamp w.
  - exists 0%nat. cbn. rewrite app_nil_r. repeat split; [lia|done].
  - cbn zeta. rewrite main_loop_step.
    pose proof (cycle_counts timestamp w) as [Hgets Hsleeps].
    destruct (cycle timestamp w).1 as [v|e].
    + destruct (IH v (cycle timestamp w).2) as (run & Hle & Hg & Hs & Hall).
      exists (S run). rewrite Hg, Hs, Hgets, Hsleeps, <- app_assoc.
      repeat split; [lia|lia|].
      intros v' Hret. f_equal. by eapply Hall.
    + exists 1%nat. cbn [fst snd]. rewrite Hgets, Hsleeps.
      repeat split; [lia|lia|done].
Qed.

(** X21: a turn asks the bot at most twice, once at most in the [try]
    block and once at most in the [except GeneralError] clause; a turn
    whose [try] block runs to the end asks it exactly once. *)
Theorem turn_asks_bot_at_most_twice (timestamp : value) (w : World) :
  (sends w ≤ sends (cycle timestamp w).2 ≤ sends w + 2)%nat
  ∧ (∀ v w1, cycle_body timestamp w = (Return v, w1) →
             sends (cycle timestamp w).2 = S (sends w)).
Proof.
  pose proof (body_sends timestamp w) as [Hmost Hone].
  destruct (cycle_body timestamp w) as [[v|e] w1] eqn:Hbody;
    cbn [fst snd] in Hmost, Hone.
  - rewrite (cycle_after_success _ _ _ _ Hbody). observe_all.
    rewrite (Hone v eq_refl). split; [lia|]. by intros ? ? [= _ <-].
  - assert (sends w ≤ sends w1)%nat as Hleast.
    { pose proof (cycle_body_run timestamp w) as Hrun.
      rewrite Hbody in Hrun. cbn [fst snd] in Hrun.
      inversion Hrun; subst; worlds_all; observe_all; lia. }
    split; [|done].
    destruct (body_failure _ _ _ _ Hbody) as [Hexception _].
    destruct (isinstance e GeneralError) eqn:Hgeneral.
    + rewrite (cycle_after_general _ _ _ _ Hbody Hgeneral). cbn [snd].
      destruct (send_message_world (str_exn e)
                  (logged w1 [Log ERROR (str_exn e)]))
        as (info & lvl & text & ->).
      observe_all. lia.
    + rewrite (cycle_after_other _ _ _ _ Hbody Hgeneral Hexception).
      observe_all. lia.
Qed.

End Pace.

(** ** Starting up *)

Section Startup.
Context {py : Python} {out : Outside}.

Lemma main_loop_requests (turns : nat) (timestamp : value) (w : World) :
  ∃ rest, from_dates (trace (main_loop turns timestamp w).2) =
          (from_dates (trace w) ++ rest)%list.
Proof.
  revert timestamp w. induction turns as [|turns IH]; intros timestamp w.
  - exists []. cbn. by rewrite app_nil_r.
  - rewrite main_loop_step.
    destruct (cycle timestamp w).1 as [v|e].
    + destruct (IH v (cycle timestamp w).2) as [rest ->].
      rewrite cycle_requests, <- app_assoc. by eexists.
    + cbn [snd]. rewrite cycle_requests. by eexists.
Qed.

(** X1: [main] ends with [SystemExit] exactly when one of the three
    environment variables is unset or empty; it then has written one
    record at level CRITICAL and has made no request, sent no message and
    taken no pause. *)
Theorem main_exits_without_tokens (turns : nat) (w : World) :
  let missing :=
    truthy PRACTICUM_TOKEN = false ∨ truthy TELEGRAM_TOKEN = false
    ∨ truthy TELEGRAM_CHAT_ID = false in
  let after := (main turns w).2 in
  ((∃ text, (main turns w).1 = Raise (Exn SystemExit text)) ↔ missing)
  ∧ (missing →
     critical_logs (trace after) =
       (critical_logs (trace w) ++ ["Токены не доступны"])%list
     ∧ gets after = gets w
     ∧ sends after = sends w
     ∧ requests (trace after) = requests (trace w)
     ∧ chat_texts (trace after) = chat_texts (trace w)
     ∧ sleeps (trace after) = sleeps (trace w)).
Proof.
  cbn zeta. unfold main, check_tokens.
  rewrite !bind_run. cbn [logging emit mret M_ret fst snd forallb].
  destruct (truthy PRACTICUM_TOKEN), (truthy TELEGRAM_TOKEN),
    (truthy TELEGRAM_CHAT_ID); cbn [andb negb];
    try (rewrite bind_run; cbn [logging emit raise fst snd];
         split; [split; [auto|by eexists]|]; intros _; by observe_all).
  split; [|by intros [|[|]]].
  split; [|by intros [|[|]]].
  intros [text Hexit]. exfalso.
  destruct telegram_Bot; [done|].
  by apply main_loop_raises in Hexit.
Qed.

(** X2: with the three variables set and the bot built, the first request
    of [main] asks for everything since the time the clock read at the
    start. *)
Theorem main_starts_at_clock (turns : nat) (w : World) :
  truthy PRACTICUM_TOKEN = true →
  truthy TELEGRAM_TOKEN = true →
  truthy TELEGRAM_CHAT_ID = true →
  telegram_Bot = None →
  ∃ rest,
    from_dates (trace (main (S turns) w).2) =
    (from_dates (trace w) ++ Some (VInt time_time) :: rest)%list.
Proof.
  intros Hpracticum Htoken Hchat Hbot.
  destruct (main_enters_loop (S turns) w Hpracticum Htoken Hchat Hbot)
    as [info ->].
  rewrite main_loop_step.
  destruct (cycle (VInt time_time) _).1 as [v|e].
  - destruct (main_loop_requests turns v
                (cycle (VInt time_time) (logged w [Log INFO info])).2)
      as [rest ->].
    rewrite cycle_requests, <- app_assoc. observe. by eexists.
  - cbn [snd]. rewrite cycle_requests. observe. by eexists.
Qed.

End Startup.

(** ** What send_message and get_api_answer report *)

Section Reports.
Context {py : Python} {out : Outside}.

(** X4: when Telegram refuses a message, [send_message] raises
    [MessageNotSentError] with a text that holds Telegram's own error, the
    id of the chat and the message that was not sent; the same text is
    written to the log at level ERROR, and nothing reaches the chat. *)
Theorem send_message_reports_refusal (message err : string) (w : World) :
  bot_send_message (sends w) = SendRaises err →
  let after := (send_message message w).2 in
  ∃ text,
    (send_message message w).1 = Raise (Exn MessageNotSentError text)
    ∧ str_contains err text = true
    ∧ str_contains (str_env TELEGRAM_CHAT_ID) text = true
    ∧ str_contains message text = true
    ∧ error_logs (trace after) = (error_logs (trace w) ++ [text])%list
    ∧ delivered_texts (trace after) = delivered_texts (trace w).
Proof.
  intros Hsend. cbn zeta. unfold send_message. run. rewrite Hsend. run.
  eexists. split; [done|]. repeat split; try find_text.
  - by observe.
  - by observe.
Qed.

(** X5: [send_message] returns exactly when Telegram delivers.  Either
    way it has asked the bot once, for the chat [TELEGRAM_CHAT_ID] and
    with the text it was given, and has made no request to the API. *)
Theorem send_message_one_call (message : string) (w : World) :
  let after := (send_message message w).2 in
  ((send_message message w).1 = Return () ↔
   bot_send_message (sends w) = Delivered)
  ∧ chat_texts (trace after) = (chat_texts (trace w) ++ [message])%list
  ∧ chat_ids (trace after) =
    (chat_ids (trace w) ++ [TELEGRAM_CHAT_ID])%list
  ∧ sends after = S (sends w)
  ∧ requests (trace after) = requests (trace w)
  ∧ gets after = gets w
  ∧ (bot_send_message (sends w) = Delivered →
     delivered_texts (trace after) =
     (delivered_texts (trace w) ++ [message])%list).
Proof.
  cbn zeta.
  destruct (bot_send_message (sends w)) as [|err] eqn:Hsend.
  - destruct (send_message_delivered message w Hsend) as (? & ? & ->).
    observe_all. by repeat split.
  - destruct (send_message_refused message err w Hsend) as (? & ? & ->).
    observe_all. by repeat split.
Qed.

(** X6: for a response whose status is not 200, the text of the
    [WrongStatusCodeError] holds the status expected, the status received
    and the address, headers and parameters of the request. *)
Theorem wrong_status_is_described
    (timestamp : value) (r : Response) (w : World) :
  requests_get (gets w) = GetResponse r →
  status_code r ≠ 200 →
  ∃ text,
    (get_api_answer timestamp w).1 = Raise (Exn WrongStatusCodeError text)
    ∧ str_contains (pretty HTTPStatus_OK) text = true
    ∧ str_contains (pretty (status_code r)) text = true
    ∧ str_contains ENDPOINT text = true
    ∧ str_contains (repr HEADERS) text = true
    ∧ str_contains (repr (VDict [("from_date", timestamp)])) text = true.
Proof.
  intros Hget Hcode. unfold get_api_answer. run. rewrite Hget. run.
  rewrite bool_decide_eq_true_2 by done. run.
  eexists. split; [done|]. repeat split; find_text.
Qed.

(** X7: when the request fails in transport, or the body of a 200
    response is not JSON, the text of the error [get_api_answer] raises
    holds the text of the underlying error and the address, headers and
    parameters of the request. *)
Theorem failed_request_is_described
    (timestamp : value) (cause : string) (w : World) :
  requests_get (gets w) = GetRaises cause
  ∨ (∃ r, requests_get (gets w) = GetResponse r
          ∧ status_code r = 200 ∧ json r = NotJson cause) →
  ∃ e,
    (get_api_answer timestamp w).1 = Raise e
    ∧ exn_class e ∈ [ConnectionError; GeneralError]
    ∧ str_contains cause (exn_arg e) = true
    ∧ str_contains ENDPOINT (exn_arg e) = true
    ∧ str_contains (repr HEADERS) (exn_arg e) = true
    ∧ str_contains (repr (VDict [("from_date", timestamp)])) (exn_arg e)
      = true.
Proof.
  intros [Hget|(r & Hget & Hcode & Hjson)];
    unfold get_api_answer; run; rewrite Hget; run.
  - eexists. split; [done|]. cbn.
    split; [rewrite !elem_of_cons; auto|]. repeat split; find_text.
  - unfold HTTPStatus_OK. rewrite Hcode. run. rewrite Hjson. run.
    eexists. split; [done|]. cbn.
    split; [rewrite !elem_of_cons; auto|]. repeat split; find_text.
Qed.

(** X8: whatever comes back, a call of [get_api_answer] makes exactly one
    request: to [ENDPOINT], with the header [Authorization] set to
    [OAuth] and the token, and with the cursor as the only parameter,
    [from_date].  It never asks the bot for anything. *)
Theorem get_api_answer_one_request (timestamp : value) (w : World) :
  let after := (get_api_answer timestamp w).2 in
  requests (trace after) =
    (requests (trace w) ++
     [(ENDPOINT,
       VDict [("Authorization", VStr ("OAuth " +:+ str_env PRACTICUM_TOKEN))],
       VDict [("from_date", timestamp)])])%list
  ∧ gets after = S (gets w)
  ∧ chat_texts (trace after) = chat_texts (trace w)
  ∧ sends after = sends w
  ∧ sleeps (trace after) = sleeps (trace w).
Proof.
  cbn zeta. destruct (get_api_answer_world timestamp w) as [info ->].
  by observe_all.
Qed.

End Reports.

(** ** The order of the checks *)

Section Checks.
Context {py : Python}.

(** X9: [check_response] looks for the keys before it looks at the type
    of [homeworks]: a dict without [homeworks] is refused for that key
    whether or not it has [current_date], and a dict with [homeworks] but
    without [current_date] is refused for [current_date] whatever
    [homeworks] is bound to.  Both texts list the keys received. *)
Theorem check_response_keys_first (d : dict) (w : World) :
  (dict_get d "homeworks" = None →
   (check_response (VDict d) w).1 =
   Raise (Exn KeyError ("Ключа homeworks нет в словаре"
                        +:+ "(пришли ключи " +:+ keys_str d +:+ ").")))
  ∧ (∀ v, dict_get d "homeworks" = Some v →
          dict_get d "current_date" = None →
          (check_response (VDict d) w).1 =
          Raise (Exn KeyError ("Ключа current_date нет в словаре"
                               +:+ "(пришли ключи " +:+ keys_str d +:+ ")."))).
Proof.
  split.
  - intros Hhw. unfold check_response, dict_has. run. by rewrite Hhw.
  - intros v Hhw Hcd. unfold check_response, dict_has. run.
    by rewrite Hhw, Hcd.
Qed.

(** X10: [parse_status] looks for [homework_name] before [status], and
    for both before it looks at the status: an entry without
    [homework_name] is refused with a [KeyError] for that key whatever
    its status, and one with [homework_name] but without [status] with a
    [KeyError] for [status].  Both texts list the keys present. *)
Theorem parse_status_keys_first (d : dict) (w : World) :
  (dict_get d "homework_name" = None →
   (parse_status (VDict d) w).1 =
   Raise (Exn KeyError ("Ключ homework_name не обнаружен в словаре"
                        +:+ "(присутствуют ключи " +:+ keys_str d +:+ ").")))
  ∧ (∀ name, dict_get d "homework_name" = Some name →
             dict_get d "status" = None →
             (parse_status (VDict d) w).1 =
             Raise (Exn KeyError ("Ключ status не обнаружен в словаре"
                                  +:+ "(присутствуют ключи " +:+ keys_str d
                                  +:+ ")."))).
Proof.
  split.
  - intros Hname. unfold parse_status, py_in, py_keys, dict_has. run.
    by rewrite Hname.
  - intros name Hname Hstatus.
    unfold parse_status, py_in, py_keys, py_getitem, dict_has. run.
    rewrite Hname. run. by rewrite Hstatus.
Qed.

(** X11: [parse_status] returns a message for nothing but a dict that has
    [homework_name] and whose [status] is the text of one of the codes of
    the verdict table; the message is then the template filled with the
    name and that code's verdict. *)
Theorem parse_status_returns_only_known
    (homeworks : value) (message : string) (w : World) :
  (parse_status homeworks w).1 = Return message →
  ∃ d name status verdict,
    homeworks = VDict d
    ∧ dict_get d "homework_name" = Some name
    ∧ dict_get d "status" = Some (VStr status)
    ∧ (status, verdict) ∈ HOMEWORK_VERDICTS
    ∧ message = "Изменился статус проверки работы " +:+ dquote
                +:+ str name +:+ dquote +:+ ". " +:+ verdict.
Proof.
  unfold parse_status, py_in, py_keys, py_getitem, py_get,
    in_HOMEWORK_VERDICTS, HOMEWORK_VERDICTS_getitem, dict_has.
  run.
  destruct homeworks as [| | | |s|l|d]; run; try done.
  - by destruct (str_contains _ s).
  - by destruct (existsb _ l).
  - destruct (dict_get d "homework_name") as [name|] eqn:Hname; run; [|done].
    destruct (dict_get d "status") as [status|] eqn:Hstatus; run; [|done].
    destruct status as [| | | |s| |]; run; try done.
    destruct (verdict_of HOMEWORK_VERDICTS s) as [verdict|] eqn:Hverdict;
      run; [|done].
    intros [= <-]. exists d, name, s, verdict.
    repeat split; try done. by apply verdict_of_known.
Qed.

(** X12: the two refusals of a status are told apart by their text.  A
    status that is [None] is reported as not received; any other hashable
    value outside the table, the empty text among them, is reported as
    not among the expected ones. *)
Theorem parse_status_two_refusals (d : dict) (name : value) (w : World) :
  dict_get d "homework_name" = Some name →
  (dict_get d "status" = Some VNone →
   (parse_status (VDict d) w).1 =
   Raise (Exn CommonError "Статус домашней работы не был получен."))
  ∧ (∀ status,
       dict_get d "status" = Some status →
       status ≠ VNone →
       hashable status = true →
       status ∉ [VStr "approved"; VStr "reviewing"; VStr "rejected"] →
       (parse_status (VDict d) w).1 =
       Raise (Exn CommonError "Статус не обнаружен в списке ожидаемых.")).
Proof.
  intros Hname.
  unfold parse_status, py_in, py_keys, py_getitem, py_get,
    in_HOMEWORK_VERDICTS, HOMEWORK_VERDICTS_getitem, dict_has.
  run. rewrite Hname. run. split.
  - intros Hstatus. by rewrite Hstatus.
  - intros status Hstatus Hnone Hhash Hout. rewrite Hstatus. run.
    destruct status as [| | | |s| |]; run; try done.
    by rewrite (verdict_of_unknown s Hout).
Qed.

(** X13: a status that cannot be hashed, a JSON array or object, is not
    refused by [parse_status] itself: looking it up in the verdict table
    raises [TypeError], which is outside both families of
    [exceptions.py]. *)
Theorem parse_status_unhashable_status
    (d : dict) (name status : value) (w : World) :
  dict_get d "homework_name" = Some name →
  dict_get d "status" = Some status →
  hashable status = false →
  ∃ e, (parse_status (VDict d) w).1 = Raise e
       ∧ exn_class e = TypeError
       ∧ isinstance e CommonError = false
       ∧ isinstance e GeneralError = false.
Proof.
  intros Hname Hstatus Hhash.
  unfold parse_status, py_in, py_keys, py_getitem, py_get,
    in_HOMEWORK_VERDICTS, HOMEWORK_VERDICTS_getitem, dict_has.
  run. rewrite Hname. run. rewrite Hstatus. run.
  destruct status; try done; run; by eexists.
Qed.

(** X14: an entry that is not a dict never gets as far as the checks of
    [parse_status]: the tests and look-ups by key fail in the interpreter
    with [TypeError] or [AttributeError]. *)
Theorem parse_status_not_a_dict (homeworks : value) (w : World) :
  (∀ d, homeworks ≠ VDict d) →
  ∃ e, (parse_status homeworks w).1 = Raise e
       ∧ exn_class e ∈ [TypeError; AttributeError].
Proof.
  intros Hshape.
  unfold parse_status, py_in, py_keys, py_getitem, py_get, dict_has.
  run.
  destruct homeworks as [| | | |s|l|d]; run;
    try (eexists; split; [done|]; cbn; rewrite !elem_of_cons; by auto).
  - destruct (str_contains _ s);
      (eexists; split; [done|]; cbn; rewrite !elem_of_cons; by auto).
  - destruct (existsb _ l);
      (eexists; split; [done|]; cbn; rewrite !elem_of_cons; by auto).
  - by destruct (Hshape d).
Qed.

(** What [parse_status] returns or raises does not depend on what
    happened before. *)
Lemma parse_status_any_world (homeworks : value) (w w' : World) :
  (parse_status homeworks w).1 = (parse_status homeworks w').1.
Proof.
  unfold parse_status, py_in, py_keys, py_getitem, py_get,
    in_HOMEWORK_VERDICTS, HOMEWORK_VERDICTS_getitem, dict_has.
  run.
  destruct homeworks as [| | | |s|l|d]; run; try done.
  - by destruct (str_contains _ s).
  - by destruct (existsb _ l).
  - destruct (dict_get d "homework_name") as [name|]; run; [|done].
    destruct (dict_get d "status") as [status|]; run; [|done].
    destruct status as [| | | |s| |]; run; try done.
    by destruct (verdict_of HOMEWORK_VERDICTS s).
Qed.

End Checks.

(** ** Turns from end to end *)

Section Turns.
Context {py : Python} {out : Outside}.

Lemma check_response_ok (d : dict) (l : list value) (cd : value) (w : World) :
  dict_get d "homeworks" = Some (VList l) →
  dict_get d "current_date" = Some cd →
  (check_response (VDict d) w).1 = Return l.
Proof.
  intros Hhw Hcd. unfold check_response, py_getitem, dict_has. run.
  by rewrite Hhw, Hcd.
Qed.

(** Once the answer is fetched and validated, what is left of the [try]
    block is to choose the text, send it and take the server's time. *)
Lemma body_after_validation
    (timestamp cd : value) (r : Response) (d : dict) (l : list value)
    (w : World) :
  requests_get (gets w) = GetResponse r →
  status_code r = 200 →
  json r = Parsed (VDict d) →
  dict_get d "homeworks" = Some (VList l) →
  dict_get d "current_date" = Some cd →
  ∃ info1 info2,
    cycle_body timestamp w =
    ((chosen_text l ≫= send_message) ;; mret cd)
      {| gets := S (gets w); sends := sends w;
         trace := trace w ++
           [Log INFO info1;
            HttpGet ENDPOINT HEADERS (VDict [("from_date", timestamp)]);
            Log INFO "Проверяется ответ API на корректность.";
            Log INFO info2] |}.
Proof.
  intros Hget Hcode Hjson Hhw Hcd.
  pose proof (get_api_answer_ok timestamp _ r w Hget Hcode Hjson) as Hfetch.
  destruct (get_api_answer_world timestamp w) as [info1 Hw].
  exists info1, ("Получен список работ " +:+ repr (VDict d)).
  rewrite cycle_body_stages, bind_run, Hfetch, Hw.
  rewrite bind_run, (check_response_ok d l cd _ Hhw Hcd), check_response_world.
  rewrite bind_run. cbn [logging emit fst snd gets sends trace].
  rewrite !(bind_run (chosen_text l ≫= send_message)).
  rewrite <- !app_assoc. cbn [app].
  destruct ((chosen_text l ≫= send_message) _).1; [|done].
  unfold py_get. by rewrite Hcd.
Qed.

(** The rest of the block, once the text is chosen. *)
Lemma body_after_choice
    (l : list value) (message : string) (cd : value) (w : World) :
  (chosen_text l w).1 = Return message →
  ∃ lvl text,
    lvl ≠ ERROR
    ∧ ((chosen_text l ≫= send_message) ;; mret cd) w =
      (match (send_message message (logged w [Log lvl text])).1 with
       | Return _ => Return cd
       | Raise e => Raise e
       end,
       (send_message message (logged w [Log lvl text])).2).
Proof.
  intros Hchoice.
  destruct (chosen_text_world l w) as [text Hw].
  assert (∃ lvl, lvl ≠ ERROR ∧ (chosen_text l w).2 = logged w [Log lvl text])
    as (lvl & Hlvl & Hw') by (destruct Hw; [exists INFO|exists DEBUG]; done).
  exists lvl, text. split; [done|].
  rewrite !bind_run, Hchoice, Hw'.
  by destruct (send_message _ _).1.
Qed.


(** The exception of a refused message, with what its text holds. *)
Lemma send_message_refusal (message err : string) (w : World) :
  bot_send_message (sends w) = SendRaises err →
  ∃ info text,
    str_contains message text = true
    ∧ str_contains err text = true
    ∧ send_message message w =
      (Raise (Exn MessageNotSentError text),
       {| gets := gets w; sends := S (sends w);
          trace := trace w ++
            [Log INFO info; BotSend TELEGRAM_CHAT_ID message (SendRaises err);
             Log ERROR text] |}).
Proof.
  intros Hsend. do 2 eexists. unfold send_message. run.
  rewrite Hsend. run. rewrite <- !app_assoc. cbn [app].
  (split; [|split]); revgoals; [done|find_text|find_text].
Qed.

(** A turn on a valid answer, by what Telegram does with the text the
    turn has chosen. *)
Lemma valid_answer_turn
    (timestamp cd : value) (r : Response) (d : dict) (l : list value)
    (message : string) (w : World) :
  requests_get (gets w) = GetResponse r →
  status_code r = 200 →
  json r = Parsed (VDict d) →
  dict_get d "homeworks" = Some (VList l) →
  dict_get d "current_date" = Some cd →
  (∀ w', (chosen_text l w').1 = Return message) →
  let after := (cycle timestamp w).2 in
  (bot_send_message (sends w) = Delivered →
   (cycle timestamp w).1 = Return cd
   ∧ chat_texts (trace after) = (chat_texts (trace w) ++ [message])%list
   ∧ delivered_texts (trace after) =
     (delivered_texts (trace w) ++ [message])%list
   ∧ error_logs (trace after) = error_logs (trace w))
  ∧ (∀ err, bot_send_message (sends w) = SendRaises err →
     ∃ report,
       str_contains message report = true
       ∧ str_contains err report = true
       ∧ chat_texts (trace after) =
         (chat_texts (trace w) ++ [message; report])%list
       ∧ ((cycle timestamp w).1 = Return timestamp
          ∨ ∃ text,
              (cycle timestamp w).1 = Raise (Exn MessageNotSentError text))).
Proof.
  intros Hget Hcode Hjson Hhw Hcd Hchoice. cbn zeta.
  destruct (body_after_validation timestamp cd r d _ w Hget Hcode Hjson Hhw Hcd)
    as (info1 & info2 & Hbody).
  match type of Hbody with
  | _ = _ ?W =>
      destruct (body_after_choice l message cd W (Hchoice W))
        as (lvl & text & Hlvl & Hrest);
        rewrite Hrest in Hbody; clear Hrest
  end.
  split.
  - intros Hsend.
    match type of Hbody with
    | context [send_message message ?W] =>
        destruct (send_message_delivered message W Hsend)
          as (info & debug & Hsent);
          rewrite Hsent in Hbody; clear Hsent
    end.
    cbn [fst snd] in Hbody.
    rewrite (cycle_after_success _ _ _ _ Hbody).
    destruct lvl; try done; by observe.
  - intros err Hsend.
    match type of Hbody with
    | context [send_message message ?W] =>
        destruct (send_message_refusal message err W Hsend)
          as (info & report & Hmessage & Herr & Hsent);
          rewrite Hsent in Hbody; clear Hsent
    end.
    cbn [fst snd] in Hbody.
    rewrite (cycle_after_general _ _ _ _ Hbody eq_refl). cbn zeta.
    exists report. split; [done|]. split; [done|].
    match goal with
    | |- context [send_message ?m ?W] =>
        pose proof (send_message_footprint m W) as (_ & _ & _ & _ & Hclass);
          destruct (send_message_world m W) as (info' & lvl' & text' & Hw)
    end.
    cbn [fst snd]. rewrite Hw. split; [by observe|].
    destruct (send_message _ _).1 as [|[c text'']]; [by left|].
    right. exists text''. f_equal.
    specialize (Hclass _ eq_refl). cbn in Hclass. by rewrite Hclass.
Qed.

(** X15: on a valid answer with a list that is not empty, the first text
    a turn hands to the bot is the message [parse_status] makes of the
    first entry, whatever the other entries are and whatever Telegram
    does, and at most one text follows it.  When Telegram delivers the
    message, it is the only text, the turn ends with the server's time as
    cursor and without a record at level ERROR; when Telegram refuses it,
    the text that follows is the report of the refusal. *)
Theorem turn_reports_first_entry
    (timestamp cd first : value) (rest : list value) (r : Response) (d : dict)
    (message : string) (w w0 : World) :
  requests_get (gets w) = GetResponse r →
  status_code r = 200 →
  json r = Parsed (VDict d) →
  dict_get d "homeworks" = Some (VList (first :: rest)) →
  dict_get d "current_date" = Some cd →
  (parse_status first w0).1 = Return message →
  let after := (cycle timestamp w).2 in
  (∃ more, chat_texts (trace after) =
           (chat_texts (trace w) ++ message :: more)%list
           ∧ (length more ≤ 1)%nat)
  ∧ (bot_send_message (sends w) = Delivered →
     (cycle timestamp w).1 = Return cd
     ∧ chat_texts (trace after) = (chat_texts (trace w) ++ [message])%list
     ∧ delivered_texts (trace after) =
       (delivered_texts (trace w) ++ [message])%list
     ∧ error_logs (trace after) = error_logs (trace w))
  ∧ (∀ err, bot_send_message (sends w) = SendRaises err →
     ∃ report,
       str_contains message report = true
       ∧ str_contains err report = true
       ∧ chat_texts (trace after) =
         (chat_texts (trace w) ++ [message; report])%list).
Proof.
  intros Hget Hcode Hjson Hhw Hcd Hparse. cbn zeta.
  destruct (valid_answer_turn timestamp cd r d (first :: rest) message w)
    as [Hdelivered Hrefused]; try done.
  { intros w'. cbn [chosen_text].
    by rewrite (parse_status_any_world first w' w0). }
  split; [|split].
  - destruct (bot_send_message (sends w)) as [|err] eqn:Hsend.
    + destruct (Hdelivered eq_refl) as (_ & Hchat & _).
      exists []. split; [done|]. cbn. lia.
    + destruct (Hrefused err eq_refl) as (report & _ & _ & Hchat & _).
      exists [report]. split; [done|]. cbn. lia.
  - done.
  - intros err Hsend.
    destruct (Hrefused err Hsend) as (report & Hmessage & Herr & Hchat & _).
    by exists report.
Qed.

(** X16: on a valid answer with an empty list, the first text a turn
    hands to the bot is the fixed text that there are no new statuses,
    whatever Telegram does, and at most one text follows it.  When
    Telegram delivers it, it is the only text, the turn ends with the
    server's time as cursor and without a record at level ERROR; when
    Telegram refuses it, the text that follows is the report of the
    refusal. *)
Theorem turn_reports_no_news
    (timestamp cd : value) (r : Response) (d : dict) (w : World) :
  requests_get (gets w) = GetResponse r →
  status_code r = 200 →
  json r = Parsed (VDict d) →
  dict_get d "homeworks" = Some (VList []) →
  dict_get d "current_date" = Some cd →
  let after := (cycle timestamp w).2 in
  (∃ more, chat_texts (trace after) =
           (chat_texts (trace w) ++ "Нет новых статусов" :: more)%list
           ∧ (length more ≤ 1)%nat)
  ∧ (bot_send_message (sends w) = Delivered →
     (cycle timestamp w).1 = Return cd
     ∧ chat_texts (trace after) =
       (chat_texts (trace w) ++ ["Нет новых статусов"])%list
     ∧ delivered_texts (trace after) =
       (delivered_texts (trace w) ++ ["Нет новых статусов"])%list
     ∧ error_logs (trace after) = error_logs (trace w))
  ∧ (∀ err, bot_send_message (sends w) = SendRaises err →
     ∃ report,
       str_contains "Нет новых статусов" report = true
       ∧ str_contains err report = true
       ∧ chat_texts (trace after) =
         (chat_texts (trace w) ++ ["Нет новых статусов"; report])%list).
Proof.
  intros Hget Hcode Hjson Hhw Hcd. cbn zeta.
  destruct (valid_answer_turn timestamp cd r d [] "Нет новых статусов" w)
    as [Hdelivered Hrefused]; try done.
  split; [|split].
  - destruct (bot_send_message (sends w)) as [|err] eqn:Hsend.
    + destruct (Hdelivered eq_refl) as (_ & Hchat & _).
      exists []. split; [done|]. cbn. lia.
    + destruct (Hrefused err eq_refl) as (report & _ & _ & Hchat & _).
      exists [report]. split; [done|]. cbn. lia.
  - done.
  - intros err Hsend.
    destruct (Hrefused err Hsend) as (report & Hmessage & Herr & Hchat & _).
    by exists report.
Qed.


(** X18: when the answer is valid but Telegram refuses the turn's message
    and then accepts the next one, the turn sends the report of the
    refusal instead, which holds the message that was not sent; that
    report is written twice to the log at level ERROR, and the cursor
    stays as it was although the answer carried the server's time. *)
Theorem refused_message_keeps_cursor
    (timestamp cd : value) (r : Response) (d : dict) (l : list value)
    (message err : string) (w w0 : World) :
  requests_get (gets w) = GetResponse r →
  status_code r = 200 →
  json r = Parsed (VDict d) →
  dict_get d "homeworks" = Some (VList l) →
  dict_get d "current_date" = Some cd →
  (l = [] ∧ message = "Нет новых статусов")
  ∨ (∃ first rest, l = first :: rest
                   ∧ (parse_status first w0).1 = Return message) →
  bot_send_message (sends w) = SendRaises err →
  bot_send_message (S (sends w)) = Delivered →
  let after := (cycle timestamp w).2 in
  (cycle timestamp w).1 = Return timestamp
  ∧ ∃ report,
      str_contains message report = true
      ∧ str_contains err report = true
      ∧ chat_texts (trace after) =
        (chat_texts (trace w) ++ [message; report])%list
      ∧ delivered_texts (trace after) =
        (delivered_texts (trace w) ++ [report])%list
      ∧ error_logs (trace after) =
        (error_logs (trace w) ++ [report; report])%list.
Proof.
  intros Hget Hcode Hjson Hhw Hcd Hchoice Hfirst Hsecond. cbn zeta.
  destruct (body_after_validation timestamp cd r d _ w Hget Hcode Hjson Hhw Hcd)
    as (info1 & info2 & Hbody).
  match type of Hbody with
  | _ = _ ?W =>
      destruct (body_after_choice l message cd W)
        as (lvl & text & Hlvl & Hrest);
        [destruct Hchoice as [[-> ->]|(first & rest & -> & Hparse)];
         [done|cbn [chosen_text];
               by rewrite (parse_status_any_world first _ w0)]|];
        rewrite Hrest in Hbody; clear Hrest
  end.
  match type of Hbody with
  | context [send_message message ?W] =>
      destruct (send_message_refusal message err W Hfirst)
        as (info & report & Hmessage & Herr & Hsent);
        rewrite Hsent in Hbody; clear Hsent
  end.
  cbn [fst snd] in Hbody.
  rewrite (cycle_after_general _ _ _ _ Hbody eq_refl). cbn zeta.
  match goal with
  | |- context [send_message ?m ?W] =>
      destruct (send_message_delivered m W Hsecond) as (? & ? & ->)
  end.
  split; [done|]. exists report.
  split; [done|]. split; [done|].
  destruct lvl; try done; by observe.
Qed.

(** X19: the two families of [exceptions.py] do not meet, [CommonError]
    has no subclass, and both are below [Exception]; so an exception of
    the class [CommonError] that leaves the [try] block is written to the
    log and never handed to the bot. *)
Theorem common_errors_are_never_sent
    (timestamp : value) (e : exn) (w w1 : World) :
  (∀ c, issubclass c CommonError = true ↔ c = CommonError)
  ∧ (∀ c, issubclass c CommonError = true → issubclass c GeneralError = false)
  ∧ (∀ c, issubclass c CommonError = true ∨ issubclass c GeneralError = true →
          issubclass c Exception = true)
  ∧ (cycle_body timestamp w = (Raise e, w1) →
     isinstance e CommonError = true →
     (cycle timestamp w).1 = Return timestamp
     ∧ chat_texts (trace (cycle timestamp w).2) = chat_texts (trace w)
     ∧ error_logs (trace (cycle timestamp w).2) =
       (error_logs (trace w1) ++ [exn_arg e])%list).
Proof.
  split; [|split; [|split]].
  - intros c. destruct c; vm_compute; split; congruence.
  - intros c. by destruct c.
  - intros c. destruct c; vm_compute; intuition congruence.
  - intros Hbody Hcommon.
    destruct (body_failure _ _ _ _ Hbody) as [Hexception Hquiet].
    assert (exn_class e = CommonError) as Hclass.
    { unfold isinstance in Hcommon. by destruct (exn_class e). }
    assert (isinstance e GeneralError = false) as Hgeneral
      by (unfold isinstance; by rewrite Hclass).
    destruct (Hquiet Hgeneral) as [Hchat _].
    rewrite (cycle_after_other _ _ _ _ Hbody Hgeneral Hexception).
    unfold str_exn. rewrite Hclass. by observe.
Qed.

(** A turn on a valid answer whose message Telegram delivers, with the
    counts of calls it leaves. *)
Lemma delivered_turn
    (timestamp cd first : value) (rest : list value) (r : Response) (d : dict)
    (message : string) (w w0 : World) :
  requests_get (gets w) = GetResponse r →
  status_code r = 200 →
  json r = Parsed (VDict d) →
  dict_get d "homeworks" = Some (VList (first :: rest)) →
  dict_get d "current_date" = Some cd →
  (parse_status first w0).1 = Return message →
  bot_send_message (sends w) = Delivered →
  (cycle timestamp w).1 = Return cd
  ∧ gets (cycle timestamp w).2 = S (gets w)
  ∧ sends (cycle timestamp w).2 = S (sends w)
  ∧ chat_texts (trace (cycle timestamp w).2) =
    (chat_texts (trace w) ++ [message])%list.
Proof.
  intros Hget Hcode Hjson Hhw Hcd Hparse Hsend.
  destruct (body_after_validation timestamp cd r d _ w Hget Hcode Hjson Hhw Hcd)
    as (info1 & info2 & Hbody).
  match type of Hbody with
  | _ = _ ?W =>
      destruct (body_after_choice (first :: rest) message cd W)
        as (lvl & text & Hlvl & Hrest);
        [cbn [chosen_text];
         by rewrite (parse_status_any_world first _ w0)|];
        rewrite Hrest in Hbody; clear Hrest
  end.
  match type of Hbody with
  | context [send_message message ?W] =>
      destruct (send_message_delivered message W Hsend)
        as (info & debug & Hsent);
        rewrite Hsent in Hbody; clear Hsent
  end.
  cbn [fst snd] in Hbody.
  rewrite (cycle_after_success _ _ _ _ Hbody). by observe.
Qed.

(** X23: the loop keeps no memory of what it has sent.  When two turns in
    a row get valid answers with the same first entry and Telegram
    delivers both times, the same message is sent twice; the second
    request asks for everything since the time the first answer
    reported, and the cursor ends at the time of the second. *)
Theorem same_status_is_sent_again
    (timestamp cd1 cd2 first : value) (rest1 rest2 : list value)
    (r1 r2 : Response) (d1 d2 : dict) (message : string) (w w0 : World) :
  requests_get (gets w) = GetResponse r1 →
  requests_get (S (gets w)) = GetResponse r2 →
  status_code r1 = 200 → status_code r2 = 200 →
  json r1 = Parsed (VDict d1) → json r2 = Parsed (VDict d2) →
  dict_get d1 "homeworks" = Some (VList (first :: rest1)) →
  dict_get d2 "homeworks" = Some (VList (first :: rest2)) →
  dict_get d1 "current_date" = Some cd1 →
  dict_get d2 "current_date" = Some cd2 →
  (parse_status first w0).1 = Return message →
  bot_send_message (sends w) = Delivered →
  bot_send_message (S (sends w)) = Delivered →
  let after := (main_loop 2 timestamp w).2 in
  (main_loop 2 timestamp w).1 = Return cd2
  ∧ chat_texts (trace after) =
    (chat_texts (trace w) ++ [message; message])%list
  ∧ from_dates (trace after) =
    (from_dates (trace w) ++ [Some timestamp; Some cd1])%list.
Proof.
  intros Hget1 Hget2 Hcode1 Hcode2 Hjson1 Hjson2 Hhw1 Hhw2 Hcd1 Hcd2
    Hparse Hsend1 Hsend2. cbn zeta.
  destruct (delivered_turn timestamp cd1 first rest1 r1 d1 message w w0)
    as (Hturn1 & Hgets1 & Hsends1 & Hchat1); try done.
  split; [|split]; [| |by apply next_request].
  - rewrite main_loop_step, Hturn1, main_loop_step.
    destruct (delivered_turn cd1 cd2 first rest2 r2 d2 message
                (cycle timestamp w).2 w0)
      as (Hturn2 & _); try done; [by rewrite Hgets1|by rewrite Hsends1|].
    by rewrite Hturn2.
  - rewrite main_loop_step, Hturn1, main_loop_step.
    destruct (delivered_turn cd1 cd2 first rest2 r2 d2 message
                (cycle timestamp w).2 w0)
      as (Hturn2 & _ & _ & Hchat2); try done;
      [by rewrite Hgets1|by rewrite Hsends1|].
    rewrite Hturn2. cbn [main_loop mret M_ret snd].
    by rewrite Hchat2, Hchat1, <- app_assoc.
Qed.

End Turns.

(** * The bot on sample servers *)

Section Outage.
#[local] Existing Instance sample_python.
#[local] Existing Instance outage.

(** At an outage the first turn ends the loop, whatever number of turns
    was to follow. *)
Lemma loop_left_at_outage :
  ∃ text,
    (main_loop 3 (VInt 0) world0).1 = Raise (Exn MessageNotSentError text)
    ∧ last (trace (main_loop 3 (VInt 0) world0).2) = Some (Sleep RETRY_PERIOD).
Proof.
  edestruct loop_left_when_notification_fails
    with (timestamp := VInt 0) (w := world0) (refusal := "Forbidden")
         (turns := 2%nat)
    as (text & Hraise & _ & Hlast);
    [vm_compute; reflexivity|reflexivity|reflexivity|].
  by exists text.
Defined.

End Outage.

Section Approved.
#[local] Existing Instance sample_python.
#[local] Existing Instance approved_server.

(** The message for an approved homework. *)
Lemma parse_status_approved :
  ∃ verdict,
    ("approved", verdict) ∈ HOMEWORK_VERDICTS
    ∧ (parse_status (VDict approved_entry) world0).1 =
      Return ("Изменился статус проверки работы " +:+ dquote
              +:+ str (VStr "X") +:+ dquote +:+ ". " +:+ verdict)
    ∧ ∀ message,
        (parse_status (VDict approved_entry) world0).1 = Return message →
        str_contains (str (VStr "X")) message = true
        ∧ str_contains verdict message = true.
Proof.
  apply (parse_status_known_status approved_entry (VStr "X") "approved"
           world0); [reflexivity|reflexivity|apply list_elem_of_here].
Defined.

(** A well-formed answer passes validation; a list where a dict is
    expected, an answer without [current_date] and a text where the list
    is expected are refused, each with what is wrong. *)
Lemma check_response_approved :
  (check_response (VDict approved_body) world0).1 =
    Return [VDict approved_entry]
  ∧ (∃ text,
       (check_response (VList []) world0).1 = Raise (Exn TypeError text)
       ∧ str_contains (type_str (VList [])) text = true)
  ∧ (∃ text,
       (check_response (VDict undated_body) world0).1 =
         Raise (Exn KeyError text)
       ∧ str_contains (keys_str undated_body) text = true)
  ∧ (∃ text,
       (check_response (VDict text_list_body) world0).1 =
         Raise (Exn TypeError text)
       ∧ str_contains (type_str (VStr "none")) text = true).
Proof.
  split; [|split; [|split]].
  - apply (proj1 (check_response_list_or_named_error
                    (VDict approved_body) world0)
             approved_body [VDict approved_entry] (VInt 1000));
      reflexivity.
  - apply (proj1 (proj2 (proj2 (check_response_list_or_named_error
                                  (VList []) world0)))).
    intros d. discriminate.
  - apply (proj1 (proj2 (proj2 (proj2
             (check_response_list_or_named_error
                (VDict undated_body) world0)))) undated_body eq_refl).
    by right.
  - apply (proj2 (proj2 (proj2 (proj2
             (check_response_list_or_named_error
                (VDict text_list_body) world0))))
             text_list_body (VStr "none") (VInt 1000));
      try reflexivity.
    intros l. discriminate.
Defined.

(** A turn that succeeds moves the cursor from 0 to the server's
    1000. *)
Lemma cursor_after_approved :
  ∃ r d,
    requests_get (gets world0) = GetResponse r
    ∧ json r = Parsed (VDict d)
    ∧ dict_get d "current_date" = Some (VInt 1000)
    ∧ (cycle (VInt 0) world0).1 = Return (VInt 1000)
    ∧ from_dates (trace (main_loop 2 (VInt 0) world0).2) =
      [Some (VInt 0); Some (VInt 1000)].
Proof.
  eapply (cursor_is_server_time (VInt 0) (VInt 1000) world0).
  vm_compute. reflexivity.
Defined.

End Approved.

Section Unavailable.
#[local] Existing Instance sample_python.
#[local] Existing Instance unavailable_server.

(** On a 503 the error is of the family and its text is handed to the
    bot. *)
Lemma unavailable_is_forwarded :
  ∃ e w1,
    cycle_body (VInt 0) world0 = (Raise e, w1)
    ∧ isinstance e GeneralError = true
    ∧ chat_texts (trace (cycle (VInt 0) world0).2) =
      (chat_texts (trace w1) ++ [str_exn e])%list.
Proof.
  do 2 eexists. split; [vm_compute; reflexivity|].
  split; [reflexivity|].
  match goal with
  | |- chat_texts (trace (cycle ?ts ?w).2) =
       (chat_texts (trace ?w1) ++ [str_exn ?e])%list =>
      destruct (failures_routed_by_kind ts e w w1) as [Hgeneral _];
        [vm_compute; reflexivity|];
        apply Hgeneral; reflexivity
  end.
Defined.

End Unavailable.

Section Undated.
#[local] Existing Instance sample_python.
#[local] Existing Instance undated_server.

(** An answer without [current_date] is logged and nothing is sent. *)
Lemma undated_is_logged_only :
  (cycle (VInt 1000) world0).1 = Return (VInt 1000)
  ∧ chat_texts (trace (cycle (VInt 1000) world0).2) = []
  ∧ sends (cycle (VInt 1000) world0).2 = 0%nat
  ∧ (∃ text, error_logs (trace (cycle (VInt 1000) world0).2) = [text])
  ∧ last (trace (cycle (VInt 1000) world0).2) = Some (Sleep RETRY_PERIOD).
Proof.
  apply (missing_current_date_logged_only (VInt 1000)
           {| status_code := 200; json := Parsed (VDict undated_body) |}
           undated_body world0); reflexivity.
Defined.

(** After an answer without [current_date] the cursor stays 1000. *)
Lemma undated_keeps_cursor :
  (main_loop 1 (VInt 1000) world0).1 = Return (VInt 1000)
  ∧ from_dates (trace (main_loop 2 (VInt 1000) world0).2) =
    [Some (VInt 1000); Some (VInt 1000)].
Proof.
  apply (missing_current_date_keeps_cursor (VInt 1000)
           {| status_code := 200; json := Parsed (VDict undated_body) |}
           undated_body world0); reflexivity.
Defined.

(** After an answer without [current_date] the cursor is not [None],
    and the next request does not carry [None]. *)
Lemma undated_cursor_is_not_none :
  dict_get undated_body "current_date" = None
  ∧ (main_loop 1 (VInt 1000) world0).1 ≠ Return VNone
  ∧ from_dates (trace (main_loop 2 (VInt 1000) world0).2) ≠
    [Some (VInt 1000); Some VNone].
Proof. by vm_compute. Qed.

End Undated.

Section Odd.
#[local] Existing Instance sample_python.
#[local] Existing Instance odd_server.

(** An answer whose [current_date] is a text makes that text the
    cursor. *)
Lemma odd_date_becomes_cursor :
  (cycle_body (VInt 0) world0).1 = Return (VStr "yesterday").
Proof.
  apply (any_current_date_becomes_cursor (VInt 0) (VStr "yesterday")
           {| status_code := 200; json := Parsed (VDict odd_body) |}
           odd_body [] world0); reflexivity.
Defined.

End Odd.

Section Entries.
#[local] Existing Instance sample_python.

(** An entry whose status is the empty text. *)
Lemma empty_status_is_common_error :
  ∃ text,
    (parse_status (VDict entry_with_empty_status) world0).1 =
    Raise (Exn CommonError text).
Proof.
  pose proof (parse_status_unknown_status entry_with_empty_status
                (VStr "X") world0 eq_refl) as Hstatus.
  cbn in Hstatus. apply Hstatus; [reflexivity|].
  rewrite !not_elem_of_cons. repeat split; try discriminate.
  apply not_elem_of_nil.
Defined.

(** An entry without the key [status] makes [parse_status] raise
    [KeyError], not [CommonError]. *)
Lemma absent_status_is_key_error :
  dict_get entry_without_status "status" = None
  ∧ (∃ text, (parse_status (VDict entry_without_status) world0).1 =
             Raise (Exn KeyError text))
  ∧ ¬ ∃ text, (parse_status (VDict entry_without_status) world0).1 =
              Raise (Exn CommonError text).
Proof.
  split; [reflexivity|]. split.
  - eexists. vm_compute. reflexivity.
  - intros [text Hraise]. vm_compute in Hraise. discriminate.
Qed.

End Entries.

Section Deep.
#[local] Existing Instance sample_python.
#[local] Existing Instance deep_server.


End Deep.

(** * Further runs on sample servers *)

Section Tokenless.
#[local] Existing Instance sample_python.
#[local] Existing Instance tokenless.

(** Without [TELEGRAM_TOKEN], [main] exits at once. *)
Lemma tokenless_main_exits :
  ∃ text, (main 5 world0).1 = Raise (Exn SystemExit text).
Proof.
  apply (proj2 (proj1 (main_exits_without_tokens 5 world0))).
  right. left. reflexivity.
Defined.

End Tokenless.

Section OutageAgain.
#[local] Existing Instance sample_python.
#[local] Existing Instance outage.

(** At an outage the loop is left with [MessageNotSentError]. *)
Lemma outage_leaves_with_unsent_message :
  ∃ e, (main_loop 3 (VInt 0) world0).1 = Raise e
       ∧ exn_class e = MessageNotSentError.
Proof.
  eexists. split; [vm_compute; reflexivity|].
  eapply (proj1 (main_ends_only_two_ways 3 world0 _) (VInt 0)).
  vm_compute. reflexivity.
Defined.

(** A refused greeting is reported with Telegram's own words. *)
Lemma refused_greeting_is_reported :
  ∃ text,
    (send_message "hello" world0).1 = Raise (Exn MessageNotSentError text)
    ∧ str_contains "Forbidden" text = true
    ∧ str_contains "hello" text = true.
Proof.
  destruct (send_message_reports_refusal (out := outage)
              "hello" "Forbidden" world0 eq_refl)
    as (text & Hraise & Herr & _ & Hmessage & _).
  by exists text.
Defined.

End OutageAgain.

Section ApprovedAgain.
#[local] Existing Instance sample_python.
#[local] Existing Instance approved_server.

(** The first request of [main] asks since the start of the clock. *)
Lemma main_asks_since_start :
  ∃ rest, from_dates (trace (main 3 world0).2) = Some (VInt 0) :: rest.
Proof.
  destruct (main_starts_at_clock (out := approved_server) 2 world0)
    as [rest Hdates]; try reflexivity.
  exists rest. exact Hdates.
Defined.

(** A greeting Telegram delivers. *)
Lemma greeting_is_delivered : (send_message "hello" world0).1 = Return ().
Proof.
  apply (proj2 (proj1 (send_message_one_call "hello" world0))). reflexivity.
Defined.

(** The status behind the message for the approved homework. *)
Lemma approved_message_is_known :
  ∃ status verdict,
    dict_get approved_entry "status" = Some (VStr status)
    ∧ (status, verdict) ∈ HOMEWORK_VERDICTS.
Proof.
  edestruct parse_status_returns_only_known
    with (homeworks := VDict approved_entry) (w := world0)
    as (d & name & status & verdict & Heq & _ & Hstatus & Hin & _);
    [vm_compute; reflexivity|].
  injection Heq as <-. by exists status, verdict.
Defined.

(** A turn on the approved homework: the server's time, no error. *)
Lemma approved_turn :
  (cycle (VInt 0) world0).1 = Return (VInt 1000)
  ∧ error_logs (trace (cycle (VInt 0) world0).2) = [].
Proof.
  edestruct turn_reports_first_entry
    with (timestamp := VInt 0) (cd := VInt 1000) (first := VDict approved_entry)
         (rest := @nil value) (d := approved_body) (w := world0) (w0 := world0)
         (r := {| status_code := 200; json := Parsed (VDict approved_body) |})
    as (_ & Hdelivered & _);
    [first [reflexivity|vm_compute; reflexivity]..|].
  destruct (Hdelivered eq_refl) as (Hturn & _ & _ & Hlogs).
  by split.
Defined.

(** Two turns on the approved homework take two requests and two
    pauses. *)
Lemma two_turns_two_pauses :
  gets (main_loop 2 (VInt 0) world0).2 = 2%nat
  ∧ sleeps (trace (main_loop 2 (VInt 0) world0).2) =
    [RETRY_PERIOD; RETRY_PERIOD].
Proof.
  destruct (main_loop_paced 2 (VInt 0) world0)
    as (run & _ & Hgets & Hsleeps & Hall).
  assert (run = 2%nat) as -> by (eapply Hall; vm_compute; reflexivity).
  by split.
Defined.

(** A turn that succeeds asks the bot once. *)
Lemma approved_turn_asks_once : sends (cycle (VInt 0) world0).2 = 1%nat.
Proof.
  eapply (proj2 (turn_asks_bot_at_most_twice (VInt 0) world0)).
  vm_compute. reflexivity.
Defined.

(** The cursor moved because the block ran to the end. *)
Lemma approved_cursor_moved :
  VInt 1000 = VInt 0
  ∨ ∃ w1, cycle_body (VInt 0) world0 = (Return (VInt 1000), w1).
Proof.
  apply (cursor_moves_only_on_success (VInt 0) (VInt 1000) world0).
  vm_compute. reflexivity.
Defined.

(** The same approval is announced at every turn. *)
Lemma approval_is_sent_again :
  (main_loop 2 (VInt 0) world0).1 = Return (VInt 1000)
  ∧ length (chat_texts (trace (main_loop 2 (VInt 0) world0).2)) = 2%nat
  ∧ from_dates (trace (main_loop 2 (VInt 0) world0).2) =
    [Some (VInt 0); Some (VInt 1000)].
Proof.
  edestruct same_status_is_sent_again
    with (timestamp := VInt 0) (cd1 := VInt 1000) (cd2 := VInt 1000)
         (first := VDict approved_entry)
         (rest1 := @nil value) (rest2 := @nil value)
         (d1 := approved_body) (d2 := approved_body)
         (w := world0) (w0 := world0)
         (r1 := {| status_code := 200; json := Parsed (VDict approved_body) |})
         (r2 := {| status_code := 200; json := Parsed (VDict approved_body) |})
    as (Hloop & Hchat & Hdates);
    [first [reflexivity|vm_compute; reflexivity]..|].
  split; [done|]. split; [|done]. by rewrite Hchat.
Defined.

End ApprovedAgain.

Section UnavailableAgain.
#[local] Existing Instance sample_python.
#[local] Existing Instance unavailable_server.

(** A 503 is described with the status received. *)
Lemma unavailable_is_described :
  ∃ text,
    (get_api_answer (VInt 0) world0).1 = Raise (Exn WrongStatusCodeError text)
    ∧ str_contains (pretty 503) text = true.
Proof.
  destruct (wrong_status_is_described (out := unavailable_server) (VInt 0)
              {| status_code := 503; json := NotJson "no body" |} world0 eq_refl)
    as (text & Hraise & _ & Hcode & _); [done|].
  by exists text.
Defined.


End UnavailableAgain.

Section Unreachable.
#[local] Existing Instance sample_python.
#[local] Existing Instance unreachable_server.

(** A timeout is described with the words of the transport. *)
Lemma timeout_is_described :
  ∃ e, (get_api_answer (VInt 0) world0).1 = Raise e
       ∧ str_contains "timed out" (exn_arg e) = true.
Proof.
  destruct (failed_request_is_described (out := unreachable_server)
              (VInt 0) "timed out" world0 (or_introl eq_refl))
    as (e & Hraise & _ & Hcause & _).
  by exists e.
Defined.

End Unreachable.

Section Shapes.
#[local] Existing Instance sample_python.

(** An answer without [homeworks]. *)
Lemma keyless_answer_is_refused :
  (check_response (VDict keyless_body) world0).1 =
  Raise (Exn KeyError ("Ключа homeworks нет в словаре"
                       +:+ "(пришли ключи " +:+ keys_str keyless_body
                       +:+ ").")).
Proof.
  apply (proj1 (check_response_keys_first keyless_body world0)). reflexivity.
Defined.

(** An entry without [homework_name]. *)
Lemma nameless_entry_is_refused :
  (parse_status (VDict entry_without_name) world0).1 =
  Raise (Exn KeyError ("Ключ homework_name не обнаружен в словаре"
                       +:+ "(присутствуют ключи "
                       +:+ keys_str entry_without_name +:+ ").")).
Proof.
  apply (proj1 (parse_status_keys_first entry_without_name world0)).
  reflexivity.
Defined.

(** An entry whose status is [None]. *)
Lemma null_status_is_not_received :
  (parse_status (VDict entry_with_null_status) world0).1 =
  Raise (Exn CommonError "Статус домашней работы не был получен.").
Proof.
  apply (proj1 (parse_status_two_refusals entry_with_null_status (VStr "X")
                  world0 eq_refl)).
  reflexivity.
Defined.

(** An entry whose status is a list. *)
Lemma list_status_is_a_type_error :
  ∃ e, (parse_status (VDict entry_with_list_status) world0).1 = Raise e
       ∧ exn_class e = TypeError
       ∧ isinstance e CommonError = false
       ∧ isinstance e GeneralError = false.
Proof.
  apply (parse_status_unhashable_status entry_with_list_status (VStr "X")
           (VList []) world0); reflexivity.
Defined.

(** An entry that is a number. *)
Lemma number_entry_is_a_type_error :
  ∃ e, (parse_status (VInt 5) world0).1 = Raise e
       ∧ exn_class e ∈ [TypeError; AttributeError].
Proof.
  apply (parse_status_not_a_dict (VInt 5) world0). intros d. discriminate.
Defined.

End Shapes.

Section OddAgain.
#[local] Existing Instance sample_python.
#[local] Existing Instance odd_server.

(** A turn on an empty list says that there is no news. *)
Lemma empty_list_turn :
  (cycle (VInt 0) world0).1 = Return (VStr "yesterday")
  ∧ chat_texts (trace (cycle (VInt 0) world0).2) = ["Нет новых статусов"]
  ∧ delivered_texts (trace (cycle (VInt 0) world0).2) =
    ["Нет новых статусов"]
  ∧ error_logs (trace (cycle (VInt 0) world0).2) = [].
Proof.
  destruct (turn_reports_no_news (out := odd_server)
              (VInt 0) (VStr "yesterday")
              {| status_code := 200; json := Parsed (VDict odd_body) |}
              odd_body world0) as (_ & Hdelivered & _); try reflexivity.
  exact (Hdelivered eq_refl).
Defined.

End OddAgain.

Section Hiccup.
#[local] Existing Instance sample_python.
#[local] Existing Instance hiccup_server.

(** A refused message leaves the cursor at 0 although the answer was
    valid. *)
Lemma hiccup_keeps_cursor : (cycle (VInt 0) world0).1 = Return (VInt 0).
Proof.
  edestruct refused_message_keeps_cursor
    with (timestamp := VInt 0) (cd := VStr "yesterday") (d := odd_body)
         (l := @nil value) (message := "Нет новых статусов")
         (err := "Timed out") (w := world0) (w0 := world0)
         (r := {| status_code := 200; json := Parsed (VDict odd_body) |})
    as (Hturn & _); [first [reflexivity|by left]..|].
  exact Hturn.
Defined.

End Hiccup.

Section Stale.
#[local] Existing Instance sample_python.
#[local] Existing Instance stale_server.

(** An empty status is logged and not sent. *)
Lemma stale_status_is_not_sent :
  (cycle (VInt 0) world0).1 = Return (VInt 0)
  ∧ chat_texts (trace (cycle (VInt 0) world0).2) = [].
Proof.
  edestruct common_errors_are_never_sent
    with (timestamp := VInt 0) (w := world0) as (_ & _ & _ & Hturn).
  edestruct Hturn as (Hcursor & Hchat & _);
    [vm_compute; reflexivity|reflexivity|].
  by split.
Defined.

End Stale.
